(** * The connection-string parser of mongoc-uri.c

    A shallow embedding of [src/mongoc/mongoc-uri.c] and the properties of
    its parser.

    Conventions of the embedding.

    - A C string is the [string] of its bytes before the terminating NUL.
    - A pointer into a C string is the suffix of the string that starts at
      the pointed byte: [*p] is the head of the suffix ([deref]), [p + n]
      drops [n] bytes ([ptr_add]), and for two pointers into the same string
      [p - q] is the difference of the lengths ([ptr_diff]) and [p > q] holds
      when [p] is the shorter suffix ([ptr_gt]).
    - An out-parameter [const char **end] that a callee may leave unwritten
      is an [option]: [None] means that the caller's variable keeps the value
      it had.
    - The text is well-formed UTF-8.  On such text [bson_utf8_get_char] of a
      multi-byte sequence is a code point above 127 and all the bytes of the
      sequence are above 127, so that walking the text byte by byte meets the
      same ASCII delimiters and backslashes as walking it by
      [bson_utf8_next_char].
    - [bson_t] documents are the ordered sequences of their elements.
    - The [goto again] loops are iterations of their body, bounded by the
      length of the text that is left ([goto_again]); the bound is shown to
      be never reached. *)

From Stdlib Require Import String Ascii List ZArith Lia Bool Arith.
From Stdlib Require Import DecimalString FunInd.
From Stdlib Require DecimalPos DecimalN.
Import ListNotations.

Local Open Scope string_scope.
Local Open Scope list_scope.

(** ** Pointers and the C library *)

Module Libc.

Definition NUL : ascii := Ascii.zero.

Definition deref (p : string) : ascii :=
  match p with
  | EmptyString => NUL
  | String c _ => c
  end.

Fixpoint ptr_add (p : string) (n : nat) {struct n} : string :=
  match n with
  | O => p
  | S n' =>
      match p with
      | EmptyString => EmptyString
      | String _ p' => ptr_add p' n'
      end
  end.

(** [ptr_diff p q] is [p - q] for [p] a pointer into the string at [q]. *)
Definition ptr_diff (p q : string) : nat := String.length q - String.length p.

(** [ptr_gt p q] is [p > q] for two pointers into one string. *)
Definition ptr_gt (p q : string) : bool :=
  (String.length p <? String.length q)%nat.

Definition strlen (s : string) : nat := String.length s.

(** [bson_strndup str n]: the first [n] bytes of [str] (all of it when it is
    shorter); the result is never NULL. *)
Fixpoint bson_strndup (str : string) (n : nat) : string :=
  match str with
  | EmptyString => EmptyString
  | String c rest =>
      match n with
      | O => EmptyString
      | S n' => String c (bson_strndup rest n')
      end
  end.

(** The C string left in a buffer of [size] bytes by [strncpy (buf, src,
    size)] or [snprintf (buf, size, ...)] followed by
    [buf[size - 1] = '\0']. *)
Definition in_buffer (size : nat) (src : string) : string :=
  bson_strndup src (size - 1).

Definition uchar (c : ascii) : Z := Z.of_N (N_of_ascii c).

Definition isdigit (c : ascii) : bool :=
  (48 <=? uchar c)%Z && (uchar c <=? 57)%Z.

Definition isspace (c : ascii) : bool :=
  (uchar c =? 32)%Z || ((9 <=? uchar c)%Z && (uchar c <=? 13)%Z).

Definition tolower (c : ascii) : ascii :=
  if (65 <=? uchar c)%Z && (uchar c <=? 90)%Z
  then ascii_of_N (N_of_ascii c + 32)
  else c.

(** [strcmp], [strncmp] and [strcasecmp]: C fixes the sign of the result
    only; a string that ends before the other gives -1 or 1. *)
Fixpoint strcmp (a b : string) : Z :=
  match a, b with
  | EmptyString, EmptyString => 0
  | EmptyString, String _ _ => -1
  | String _ _, EmptyString => 1
  | String ca a', String cb b' =>
      if (uchar ca =? uchar cb)%Z then strcmp a' b'
      else (uchar ca - uchar cb)%Z
  end.

Fixpoint strncmp (a b : string) (n : nat) {struct n} : Z :=
  match n with
  | O => 0
  | S n' =>
      match a, b with
      | EmptyString, EmptyString => 0
      | EmptyString, String _ _ => -1
      | String _ _, EmptyString => 1
      | String ca a', String cb b' =>
          if (uchar ca =? uchar cb)%Z then strncmp a' b' n'
          else (uchar ca - uchar cb)%Z
      end
  end.

Fixpoint strcasecmp (a b : string) : Z :=
  match a, b with
  | EmptyString, EmptyString => 0
  | EmptyString, String _ _ => -1
  | String _ _, EmptyString => 1
  | String ca a', String cb b' =>
      if (uchar (tolower ca) =? uchar (tolower cb))%Z then strcasecmp a' b'
      else (uchar (tolower ca) - uchar (tolower cb))%Z
  end.

(** [strstr haystack needle]: the pointer to the first occurrence, or NULL. *)
Fixpoint strstr (haystack needle : string) : option string :=
  if String.prefix needle haystack then Some haystack
  else
    match haystack with
    | EmptyString => None
    | String _ rest => strstr rest needle
    end.

(** The value of the run of decimal digits at the head of [s]. *)
Fixpoint digits (acc : Z) (s : string) : Z :=
  match s with
  | EmptyString => acc
  | String c rest =>
      if isdigit c then digits (acc * 10 + (uchar c - 48)) rest else acc
  end.

Fixpoint skip_spaces (s : string) : string :=
  match s with
  | EmptyString => s
  | String c rest => if isspace c then skip_spaces rest else s
  end.

Definition ULONG_MAX : Z := 2 ^ 64 - 1.
Definition LONG_MAX : Z := 2 ^ 63 - 1.
Definition LONG_MIN : Z := - 2 ^ 63.

(** [sscanf (s, "%hu", &port)] on an [s] that starts with a digit: the
    digits are converted as by [strtoul] (saturating at [ULONG_MAX], 64-bit
    [long]) and the result is stored in an [unsigned short]. *)
Definition sscanf_hu (s : string) : Z :=
  Z.min (digits 0 (skip_spaces s)) ULONG_MAX mod 2 ^ 16.

(** [strtol (s, NULL, 10)], 64-bit [long]: white space, an optional sign,
    the digits; 0 when there is no digit; saturating. *)
Definition strtol (s : string) : Z :=
  let s := skip_spaces s in
  let v :=
    match s with
    | String "-" rest => (- digits 0 rest)%Z
    | String "+" rest => digits 0 rest
    | _ => digits 0 s
    end in
  Z.max LONG_MIN (Z.min v LONG_MAX).

(** The conversion of a [long] to [bson_int32_t]. *)
Definition to_int32 (v : Z) : Z := (v + 2 ^ 31) mod 2 ^ 32 - 2 ^ 31.

(** ["%hu"] and ["%u"] of [snprintf]. *)
Definition decimal (n : N) : string := NilZero.string_of_uint (N.to_uint n).

End Libc.
Import Libc.

(** ** The data of the parser *)

Definition MONGOC_DEFAULT_PORT : Z := 27017.

Inductive family_t : Type := AF_UNIX | AF_INET.

(** [mongoc_host_list_t]; the [next] link is the tail of the list that
    holds the record. *)
Record mongoc_host_list_t : Type := {
  host : string;
  host_and_port : string;
  port : Z;
  family : family_t
}.

(** The elements that the parser appends to a [bson_t]. *)
#[warnings="-register-all"]
Inductive bson_value : Type :=
| BSON_INT32 (v : Z)
| BSON_BOOL (v : bool)
| BSON_UTF8 (v : string)
| BSON_DOCUMENT (v : list (string * bson_value)).

Definition bson_t : Type := list (string * bson_value).

Definition bson_init : bson_t := [].

Definition bson_append_int32 (b : bson_t) (key : string) (v : Z) : bson_t :=
  b ++ [(key, BSON_INT32 v)].

Definition bson_append_bool (b : bson_t) (key : string) (v : bool) : bson_t :=
  b ++ [(key, BSON_BOOL v)].

Definition bson_append_utf8 (b : bson_t) (key value : string) : bson_t :=
  b ++ [(key, BSON_UTF8 value)].

Definition bson_append_document (b : bson_t) (key : string) (v : bson_t)
  : bson_t :=
  b ++ [(key, BSON_DOCUMENT v)].

Definition bson_count_keys (b : bson_t) : nat := List.length b.

(** [struct _mongoc_uri_t]; a NULL [char *] is [None]. *)
Record mongoc_uri_t : Type := {
  str : option string;
  hosts : list mongoc_host_list_t;
  username : option string;
  password : option string;
  database : option string;
  options : bson_t;
  read_prefs : bson_t;
  write_concern : bson_t
}.

Definition set_str (uri : mongoc_uri_t) (v : option string) : mongoc_uri_t :=
  {| str := v; hosts := hosts uri; username := username uri;
     password := password uri; database := database uri;
     options := options uri; read_prefs := read_prefs uri;
     write_concern := write_concern uri |}.

Definition set_hosts (uri : mongoc_uri_t) (v : list mongoc_host_list_t)
  : mongoc_uri_t :=
  {| str := str uri; hosts := v; username := username uri;
     password := password uri; database := database uri;
     options := options uri; read_prefs := read_prefs uri;
     write_concern := write_concern uri |}.

Definition set_username (uri : mongoc_uri_t) (v : option string)
  : mongoc_uri_t :=
  {| str := str uri; hosts := hosts uri; username := v;
     password := password uri; database := database uri;
     options := options uri; read_prefs := read_prefs uri;
     write_concern := write_concern uri |}.

Definition set_password (uri : mongoc_uri_t) (v : option string)
  : mongoc_uri_t :=
  {| str := str uri; hosts := hosts uri; username := username uri;
     password := v; database := database uri;
     options := options uri; read_prefs := read_prefs uri;
     write_concern := write_concern uri |}.

Definition set_database (uri : mongoc_uri_t) (v : option string)
  : mongoc_uri_t :=
  {| str := str uri; hosts := hosts uri; username := username uri;
     password := password uri; database := v;
     options := options uri; read_prefs := read_prefs uri;
     write_concern := write_concern uri |}.

Definition set_options (uri : mongoc_uri_t) (v : bson_t) : mongoc_uri_t :=
  {| str := str uri; hosts := hosts uri; username := username uri;
     password := password uri; database := database uri;
     options := v; read_prefs := read_prefs uri;
     write_concern := write_concern uri |}.

Definition set_read_prefs (uri : mongoc_uri_t) (v : bson_t) : mongoc_uri_t :=
  {| str := str uri; hosts := hosts uri; username := username uri;
     password := password uri; database := database uri;
     options := options uri; read_prefs := v;
     write_concern := write_concern uri |}.

(** ** Bounded iteration of a [goto again] body *)

Inductive outcome (A : Type) : Type :=
| Ret (a : A)
| OutOfFuel.
Arguments Ret {A} a.
Arguments OutOfFuel {A}.

Definition bind {A B : Type} (m : outcome A) (k : A -> outcome B)
  : outcome B :=
  match m with
  | Ret a => k a
  | OutOfFuel => OutOfFuel
  end.

Notation "x <- m ;; k" := (bind m (fun x => k))
  (at level 61, m at next level, right associativity).
Notation "' p <- m ;; k" := (bind m (fun p => k))
  (at level 61, p pattern, m at next level, right associativity).

(** What one pass through the body of a loop does: jump back to the label
    with a new state, or leave the function with a result. *)
Inductive jump (S R : Type) : Type :=
| Again (s : S)
| Return (r : R).
Arguments Again {S R} s.
Arguments Return {S R} r.

Fixpoint goto_again {S R : Type} (body : S -> outcome (jump S R))
  (fuel : nat) (s : S) : outcome R :=
  match fuel with
  | O => OutOfFuel
  | Datatypes.S fuel' =>
      match body s with
      | Ret (Again s') => goto_again body fuel' s'
      | Ret (Return r) => Ret r
      | OutOfFuel => OutOfFuel
      end
  end.

(** ** The parser *)

Section Parser.

(** [sizeof link_->host] and [sizeof link_->host_and_port]: the two arrays
    are declared in mongoc-host-list.h, which is not among the sources. *)
Variables host_size host_and_port_size : nat.

(** The [link_] that [mongoc_uri_append_host] fills. *)
Definition host_link (host : string) (port : Z) : mongoc_host_list_t :=
  {| host := in_buffer host_size host;
     host_and_port :=
       in_buffer host_and_port_size (host ++ ":" ++ decimal (Z.to_N port));
     port := port;
     family :=
       match strstr host ".sock" with
       | Some _ => AF_UNIX
       | None => AF_INET
       end |}.

(** The walk to the last link and the assignment of its [next] are the
    append to the list. *)
Definition mongoc_uri_append_host (uri : mongoc_uri_t) (host : string)
  (port : Z) : mongoc_uri_t :=
  let link_ := host_link host port in
  set_hosts uri (hosts uri ++ [link_]).

(** The [for] loop of [scan_to_unichar]: the position [iter] of the first
    [stop] that no backslash hides, NULL when the text or an escape ends
    first. *)
Fixpoint scan_iter (iter : string) (stop : ascii) : option string :=
  match iter with
  | EmptyString => None
  | String c next =>
      if Ascii.eqb c stop then Some iter
      else if Ascii.eqb c "\" then
        match next with
        | EmptyString => None
        | String _ next' => scan_iter next' stop
        end
      else scan_iter next stop
  end.

(** [scan_to_unichar str stop]: the copy of the text before [stop] and
    [*end], or NULL. *)
Definition scan_to_unichar (str : string) (stop : ascii)
  : option (string * string) :=
  match scan_iter str stop with
  | Some iter => Some (bson_strndup str (ptr_diff iter str), iter)
  | None => None
  end.

(** [mongoc_uri_parse_scheme]: [*end] when it returns TRUE. *)
Definition mongoc_uri_parse_scheme (str : string) : option string :=
  if negb (strncmp str "mongodb://" 10 =? 0)%Z then None
  else Some (ptr_add str 10).

Definition mongoc_uri_parse_userpass (uri : mongoc_uri_t) (str : string)
  : bool * mongoc_uri_t * option string :=
  match scan_to_unichar str "@" with
  | Some (s, end_userpass) =>
      match scan_to_unichar s ":" with
      | Some (user, end_user) =>
          (true,
           set_password (set_username uri (Some user))
             (Some (ptr_add end_user 1)),
           Some (ptr_add end_userpass 1))
      | None => (false, set_username uri None, None)
      end
  | None => (true, uri, None)
  end.

Definition mongoc_uri_parse_host (uri : mongoc_uri_t) (str : string)
  : bool * mongoc_uri_t :=
  match scan_to_unichar str ":" with
  | Some (hostname, end_host) =>
      let end_host := ptr_add end_host 1 in
      if negb (isdigit (deref end_host)) then (false, uri)
      else (true, mongoc_uri_append_host uri hostname (sscanf_hu end_host))
  | None => (true, mongoc_uri_append_host uri str MONGOC_DEFAULT_PORT)
  end.

(** The first condition after [again:] in [mongoc_uri_parse_hosts]: [sock]
    when the text starts a path to a UNIX domain socket. *)
Definition sock_path (str : string) : option string :=
  if Ascii.eqb (deref str) "/" then
    match strstr str ".sock" with
    | Some sock =>
        if match strstr str "," with
           | None => true
           | Some tmp => ptr_gt tmp sock
           end
           &&
           match strstr str "?" with
           | None => true
           | Some tmp => ptr_gt tmp sock
           end
        then Some sock
        else None
    | None => None
    end
  else None.

(** One pass through the body of [mongoc_uri_parse_hosts] from [again:],
    on the variables [uri], [str] and [ret]; the result is the returned
    value, [uri] and [*end]. *)
Definition mongoc_uri_parse_hosts_again
  (st : mongoc_uri_t * string * bool)
  : jump (mongoc_uri_t * string * bool) (bool * mongoc_uri_t * option string) :=
  let '(uri, str, ret) := st in
  match sock_path str with
  | Some sock =>
      let s := bson_strndup str (ptr_diff (ptr_add sock 5) str) in
      match mongoc_uri_parse_host uri s with
      | (false, uri) => Return (false, uri, None)
      | (true, uri) =>
          let str := ptr_add sock 5 in
          if Ascii.eqb (deref str) "," then Again (uri, ptr_add str 1, true)
          else Return (true, uri, None)
      end
  | None =>
      match scan_to_unichar str "," with
      | Some (s, end_hostport) =>
          match mongoc_uri_parse_host uri s with
          | (false, uri) => Return (false, uri, None)
          | (true, uri) => Again (uri, ptr_add end_hostport 1, true)
          end
      | None =>
          match
            match scan_to_unichar str "/" with
            | Some r => Some r
            | None => scan_to_unichar str "?"
            end
          with
          | Some (s, end_hostport) =>
              match mongoc_uri_parse_host uri s with
              | (false, uri) => Return (false, uri, None)
              | (true, uri) => Return (true, uri, Some end_hostport)
              end
          | None =>
              if negb (Ascii.eqb (deref str) NUL) then
                match mongoc_uri_parse_host uri str with
                | (false, uri) => Return (false, uri, None)
                | (true, uri) =>
                    Return (true, uri, Some (ptr_add str (strlen str)))
                end
              else Return (ret, uri, None)
          end
      end
  end.

Definition mongoc_uri_parse_hosts (uri : mongoc_uri_t) (str : string)
  : outcome (bool * mongoc_uri_t * option string) :=
  goto_again (fun st => Ret (mongoc_uri_parse_hosts_again st))
    (S (strlen str)) (uri, str, false).

Definition mongoc_uri_parse_database (uri : mongoc_uri_t) (str : string)
  : bool * mongoc_uri_t * option string :=
  match scan_to_unichar str "?" with
  | Some (db, end_database) =>
      (true, set_database uri (Some db), Some end_database)
  | None =>
      if negb (Ascii.eqb (deref str) NUL) then
        (true, set_database uri (Some str), Some (ptr_add str (strlen str)))
      else (true, set_database uri None, None)
  end.

(** One pass through the body of [mongoc_uri_parse_read_prefs] from
    [again:], on the variables [b] and [str]; on leaving the loop the
    result is [b]. *)
Definition mongoc_uri_parse_read_prefs_again (st : bson_t * string)
  : jump (bson_t * string) bson_t :=
  let '(b, str) := st in
  match scan_to_unichar str "," with
  | Some (keyval, end_keyval) =>
      let b :=
        match scan_to_unichar keyval ":" with
        | Some (key, end_key) => bson_append_utf8 b key (ptr_add end_key 1)
        | None => b
        end in
      Again (b, ptr_add end_keyval 1)
  | None =>
      match scan_to_unichar str ":" with
      | Some (key, end_key) =>
          Return (bson_append_utf8 b key (ptr_add end_key 1))
      | None => Return b
      end
  end.

Definition mongoc_uri_parse_read_prefs (uri : mongoc_uri_t) (str : string)
  : outcome mongoc_uri_t :=
  b <- goto_again (fun st => Ret (mongoc_uri_parse_read_prefs_again st))
         (S (strlen str)) (bson_init, str) ;;
  let i := bson_count_keys (read_prefs uri) in
  let keystr := in_buffer 32 (decimal (N.of_nat i)) in
  Ret (set_read_prefs uri (bson_append_document (read_prefs uri) keystr b)).

Definition mongoc_uri_parse_option (uri : mongoc_uri_t) (str : string)
  : outcome (bool * mongoc_uri_t) :=
  match scan_to_unichar str "=" with
  | None => Ret (false, uri)
  | Some (key, end_key) =>
      let value := ptr_add end_key 1 in
      if (strcasecmp key "connecttimeoutms" =? 0)%Z ||
         (strcasecmp key "sockettimeoutms" =? 0)%Z ||
         (strcasecmp key "maxpoolsize" =? 0)%Z ||
         (strcasecmp key "minpoolsize" =? 0)%Z ||
         (strcasecmp key "maxidletimems" =? 0)%Z ||
         (strcasecmp key "waitqueuemultiple" =? 0)%Z ||
         (strcasecmp key "waitqueuetimeoutms" =? 0)%Z ||
         (strcasecmp key "wtimeoutms" =? 0)%Z
      then
        let v_int := to_int32 (strtol value) in
        Ret (true, set_options uri (bson_append_int32 (options uri) key v_int))
      else if (strcasecmp key "w" =? 0)%Z then
        if Ascii.eqb (deref value) "-" || isdigit (deref value) then
          let v_int := to_int32 (strtol value) in
          Ret (true,
               set_options uri (bson_append_int32 (options uri) key v_int))
        else
          Ret (true, set_options uri (bson_append_utf8 (options uri) key value))
      else if (strcasecmp key "journal" =? 0)%Z ||
              (strcasecmp key "slaveok" =? 0)%Z ||
              (strcasecmp key "ssl" =? 0)%Z
      then
        Ret (true,
             set_options uri
               (bson_append_bool (options uri) key
                  (strcmp value "true" =? 0)%Z))
      else if (strcasecmp key "readpreferencetags" =? 0)%Z then
        uri <- mongoc_uri_parse_read_prefs uri value ;;
        Ret (true, uri)
      else
        Ret (true, set_options uri (bson_append_utf8 (options uri) key value))
  end.

(** One pass through the body of [mongoc_uri_parse_options] from
    [again:], on the variables [uri] and [str]. *)
Definition mongoc_uri_parse_options_again (st : mongoc_uri_t * string)
  : outcome (jump (mongoc_uri_t * string) (bool * mongoc_uri_t)) :=
  let '(uri, str) := st in
  match scan_to_unichar str "&" with
  | Some (option, end_option) =>
      '(ok, uri) <- mongoc_uri_parse_option uri option ;;
      if negb ok then Ret (Return (false, uri))
      else Ret (Again (uri, ptr_add end_option 1))
  | None =>
      if negb (Ascii.eqb (deref str) NUL) then
        '(ok, uri) <- mongoc_uri_parse_option uri str ;;
        if negb ok then Ret (Return (false, uri))
        else Ret (Return (true, uri))
      else Ret (Return (true, uri))
  end.

Definition mongoc_uri_parse_options (uri : mongoc_uri_t) (str : string)
  : outcome (bool * mongoc_uri_t) :=
  goto_again mongoc_uri_parse_options_again (S (strlen str)) (uri, str).

(** The [case '?':] part of the [switch] in [mongoc_uri_parse], entered
    with [str] at the character before the options. *)
Definition mongoc_uri_parse_case_options (uri : mongoc_uri_t) (str : string)
  : outcome (bool * mongoc_uri_t) :=
  let str := ptr_add str 1 in
  if negb (Ascii.eqb (deref str) NUL) then
    '(ok, uri) <- mongoc_uri_parse_options uri str ;;
    if negb ok then Ret (false, uri) else Ret (true, uri)
  else Ret (true, uri).

(** The value that a call with [&str] as out-parameter leaves in [str]. *)
Definition written (end_ : option string) (str : string) : string :=
  match end_ with
  | Some p => p
  | None => str
  end.

(** The [switch] that ends [mongoc_uri_parse], with [str] as the
    host list left it. *)
Definition mongoc_uri_parse_switch (uri : mongoc_uri_t) (str : string)
  : outcome (bool * mongoc_uri_t) :=
  if Ascii.eqb (deref str) "/" then
    let str := ptr_add str 1 in
    let '(ok, uri, end_) :=
      if negb (Ascii.eqb (deref str) NUL)
      then mongoc_uri_parse_database uri str
      else (true, uri, None) in
    if negb ok then Ret (false, uri)
    else
      let str := written end_ str in
      if Ascii.eqb (deref str) NUL then Ret (true, uri)
      else mongoc_uri_parse_case_options uri str
  else if Ascii.eqb (deref str) "?" then
    mongoc_uri_parse_case_options uri str
  else Ret (true, uri).

Definition mongoc_uri_parse (uri : mongoc_uri_t) (str : string)
  : outcome (bool * mongoc_uri_t) :=
  match mongoc_uri_parse_scheme str with
  | None => Ret (false, uri)
  | Some str =>
      if Ascii.eqb (deref str) NUL then Ret (false, uri)
      else
        let '(ok, uri, end_) := mongoc_uri_parse_userpass uri str in
        if negb ok then Ret (false, uri)
        else
          let str := written end_ str in
          if Ascii.eqb (deref str) NUL then Ret (false, uri)
          else
            '(ok, uri, end_) <- mongoc_uri_parse_hosts uri str ;;
            if negb ok then Ret (false, uri)
            else mongoc_uri_parse_switch uri (written end_ str)
  end.

(** The structure that [bson_malloc0] and the three [bson_init] leave. *)
Definition uri_zero : mongoc_uri_t :=
  {| str := None; hosts := []; username := None; password := None;
     database := None; options := bson_init; read_prefs := bson_init;
     write_concern := bson_init |}.

(** [mongoc_uri_new]: the new structure, or NULL after
    [mongoc_uri_destroy]. *)
Definition mongoc_uri_new (uri_string : string)
  : outcome (option mongoc_uri_t) :=
  '(ok, uri) <- mongoc_uri_parse uri_zero uri_string ;;
  if negb ok then Ret None
  else Ret (Some (set_str uri (Some uri_string))).

(** What a call of [mongoc_uri_parse] that returns TRUE went through:
    each stage returned TRUE, on the text that the stage before left. *)
Definition all_stages (uri : mongoc_uri_t) (str : string)
  (uri' : mongoc_uri_t) : Prop :=
  exists s1 u1 e1 u2 e2,
    mongoc_uri_parse_scheme str = Some s1 /\
    deref s1 <> NUL /\
    mongoc_uri_parse_userpass uri s1 = (true, u1, e1) /\
    deref (written e1 s1) <> NUL /\
    mongoc_uri_parse_hosts u1 (written e1 s1) = Ret (true, u2, e2) /\
    mongoc_uri_parse_switch u2 (written e2 (written e1 s1)) = Ret (true, uri').

Definition mongoc_uri_get_hosts (uri : mongoc_uri_t)
  : list mongoc_host_list_t := hosts uri.

Definition mongoc_uri_get_database (uri : mongoc_uri_t) : option string :=
  database uri.

Definition mongoc_uri_get_options (uri : mongoc_uri_t) : bson_t :=
  options uri.

Definition mongoc_uri_get_read_preferences (uri : mongoc_uri_t) : bson_t :=
  read_prefs uri.

Definition mongoc_uri_get_string (uri : mongoc_uri_t) : option string :=
  str uri.

End Parser.

(** ** The words of the specification *)

(** Splitting a text at every separator that no backslash hides; [tok] is
    the part of the current token that was already read. *)
Fixpoint split_unescaped (sep : ascii) (tok s : string) : list string :=
  match s with
  | EmptyString => [tok]
  | String c rest =>
      if Ascii.eqb c sep then tok :: split_unescaped sep EmptyString rest
      else if Ascii.eqb c "\" then
        match rest with
        | EmptyString => [(tok ++ String c EmptyString)%string]
        | String e rest' =>
            split_unescaped sep
              (tok ++ String c (String e EmptyString))%string rest'
        end
      else split_unescaped sep (tok ++ String c EmptyString)%string rest
  end.

(** A tag token with an unescaped [:] gives a key and a value, any other
    token nothing. *)
Definition tag_of_token (tok : string) : list (string * bson_value) :=
  match scan_to_unichar tok ":" with
  | Some (key, end_key) => [(key, BSON_UTF8 (ptr_add end_key 1))]
  | None => []
  end.

(** The tag group of the value of one [readpreferencetags] option. *)
Definition tag_group (value : string) : bson_t :=
  flat_map tag_of_token (split_unescaped "," EmptyString value).

(** Keys are matched without regard to case. *)
Fixpoint lowercase (s : string) : string :=
  match s with
  | EmptyString => EmptyString
  | String c rest => String (tolower c) (lowercase rest)
  end.

(** The keys whose value is stored as an [Int32], and as a [Bool]. *)
Definition int32_keys : list string :=
  ["connecttimeoutms"; "sockettimeoutms"; "maxpoolsize"; "minpoolsize";
   "maxidletimems"; "waitqueuemultiple"; "waitqueuetimeoutms"; "wtimeoutms"].

Definition bool_keys : list string := ["journal"; "slaveok"; "ssl"].

Definition key_in (key : string) (names : list string) : bool :=
  existsb (String.eqb (lowercase key)) names.

(** The table of coercions of the option stage, for the keys that are
    stored in [options]; the numbers are read as the C library reads
    them. *)
Definition coerced (key value : string) : bson_value :=
  if key_in key int32_keys then BSON_INT32 (to_int32 (strtol value))
  else if key_in key ["w"] then
    if Ascii.eqb (deref value) "-" || isdigit (deref value)
    then BSON_INT32 (to_int32 (strtol value))
    else BSON_UTF8 value
  else if key_in key bool_keys then BSON_BOOL (String.eqb value "true")
  else BSON_UTF8 value.

(** ** Definitions for the statements *)

(** The structure after some options and tag groups were appended. *)
Definition grown (uri : mongoc_uri_t) (lo lr : bson_t) : mongoc_uri_t :=
  set_read_prefs (set_options uri (options uri ++ lo)) (read_prefs uri ++ lr).

(** The key of the document that holds a new tag group: the [keystr] of
    [mongoc_uri_parse_read_prefs]. *)
Definition tag_group_key (uri : mongoc_uri_t) : string :=
  in_buffer 32 (decimal (N.of_nat (bson_count_keys (read_prefs uri)))).


(** No character of [s] is one of [cs]. *)
Fixpoint free_of (cs : list ascii) (s : string) : bool :=
  match s with
  | EmptyString => true
  | String c rest => negb (existsb (Ascii.eqb c) cs) && free_of cs rest
  end.

(** A text without any of the characters that the parser gives a meaning
    to. *)
Definition plain (s : string) : bool :=
  free_of [NUL; ","%char; "/"%char; "?"%char; ":"%char; "@"%char;
           "\"%char] s.


(** The keys of the tag groups count them from 0. *)
Definition numbered (b : bson_t) : Prop :=
  map fst b
  = map (fun i => in_buffer 32 (decimal (N.of_nat i))) (seq 0 (List.length b)).

(** A document whose elements are all texts. *)
Definition is_tag_group (v : bson_value) : bool :=
  match v with
  | BSON_DOCUMENT d =>
      forallb (fun kv => match snd kv with
                         | BSON_UTF8 _ => true
                         | _ => false
                         end) d
  | _ => false
  end.

(** A value that fits a [bson_int32_t], a port that fits a
    [bson_uint16_t]. *)
Definition int32_range (v : Z) : Prop := (- 2 ^ 31 <= v < 2 ^ 31)%Z.
Definition uint16_range (v : Z) : Prop := (0 <= v < 2 ^ 16)%Z.

(** An option as the option stage stores it: its key is not the key of
    the tag groups, its value is the one the table gives for some text, an
    [Int32] fits 32 bits, and it is not a document. *)
Definition stored_option (kv : string * bson_value) : Prop :=
  key_in (fst kv) ["readpreferencetags"] = false /\
  (exists value, snd kv = coerced (fst kv) value) /\
  match snd kv with
  | BSON_INT32 v => int32_range v
  | BSON_DOCUMENT _ => False
  | _ => True
  end.

(** Tag groups as the option stage stores them. *)
Definition tag_groups (b : bson_t) : Prop :=
  numbered b /\ forallb (fun kv => is_tag_group (snd kv)) b = true.

(** The options and the tag groups are as the option stage stores them. *)
Definition well_stored (uri : mongoc_uri_t) : Prop :=
  Forall stored_option (options uri) /\ tag_groups (read_prefs uri).

(** [tok] is a run of consecutive bytes of [s]. *)
Definition piece_of (tok s : string) : Prop :=
  exists before after, s = (before ++ tok ++ after)%string.

(** A link that [mongoc_uri_append_host] made from a host name that is a
    piece of [text] and a port that fits 16 bits. *)
Definition host_from_text (host_size host_and_port_size : nat)
  (text : string) (h : mongoc_host_list_t) : Prop :=
  exists name p,
    piece_of name text /\ uint16_range p /\
    h = host_link host_size host_and_port_size name p.

(** The bytes of a C string that is well-formed UTF-8: no NUL, and every
    character is one 7-bit byte or one of the sequences of two, three or
    four bytes of the Unicode standard (no overlong form, no surrogate,
    nothing above U+10FFFF).  On such a text [bson_utf8_get_char] gives a
    7-bit byte itself and a code point above 127 for every other
    sequence, which [bson_utf8_next_char] steps over. *)
Definition in_range (lo hi : Z) (c : ascii) : bool :=
  (lo <=? uchar c)%Z && (uchar c <=? hi)%Z.

Definition utf8_three (b0 b1 : ascii) : bool :=
  in_range 224 224 b0 && in_range 160 191 b1
  || in_range 225 236 b0 && in_range 128 191 b1
  || in_range 237 237 b0 && in_range 128 159 b1
  || in_range 238 239 b0 && in_range 128 191 b1.

Definition utf8_four (b0 b1 : ascii) : bool :=
  in_range 240 240 b0 && in_range 144 191 b1
  || in_range 241 243 b0 && in_range 128 191 b1
  || in_range 244 244 b0 && in_range 128 143 b1.

Fixpoint utf8_text (s : string) : bool :=
  match s with
  | EmptyString => true
  | String b0 s1 =>
      if in_range 1 127 b0 then utf8_text s1
      else
        match s1 with
        | EmptyString => false
        | String b1 s2 =>
            if in_range 194 223 b0 then in_range 128 191 b1 && utf8_text s2
            else
              match s2 with
              | EmptyString => false
              | String b2 s3 =>
                  if utf8_three b0 b1
                  then in_range 128 191 b2 && utf8_text s3
                  else
                    match s3 with
                    | EmptyString => false
                    | String b3 s4 =>
                        utf8_four b0 b1 && in_range 128 191 b2
                        && in_range 128 191 b3 && utf8_text s4
                    end
              end
        end
  end.

(** ** Facts on strings, pointers and the scanner *)

Functional Scheme scan_iter_ind := Induction for scan_iter Sort Prop.

(** The equation of two returned values, taken apart. *)
Ltac returned H := injection H; intros; subst.

(** Rewriting with the tests on characters that the context has decided. *)
Ltac decided :=
  repeat match goal with
         | E : Ascii.eqb _ _ = _ |- _ => rewrite E; clear E
         end.

Lemma append_empty_r (s : string) : (s ++ "")%string = s.
Proof. induction s as [|c s IH]; simpl; [reflexivity | now rewrite IH]. Qed.

Lemma append_assoc (a b c : string) :
  ((a ++ b) ++ c)%string = (a ++ (b ++ c))%string.
Proof. induction a as [|x a IH]; simpl; [reflexivity | now rewrite IH]. Qed.

Lemma length_append (a b : string) :
  String.length (a ++ b) = String.length a + String.length b.
Proof. induction a as [|x a IH]; simpl; [reflexivity | now rewrite IH]. Qed.

Lemma bson_strndup_append (pre e : string) :
  bson_strndup (pre ++ e) (String.length pre) = pre.
Proof.
  induction pre as [|x pre IH]; simpl.
  - now destruct e.
  - now rewrite IH.
Qed.



Lemma ptr_add_length (p : string) (n : nat) :
  String.length (ptr_add p n) <= String.length p.
Proof.
  revert p; induction n as [|n IH]; intros p; simpl; [lia|].
  destruct p as [|c p]; simpl; [lia|]. specialize (IH p). lia.
Qed.

Lemma ptr_add_advances (p : string) :
  deref p <> NUL -> String.length (ptr_add p 1) < String.length p.
Proof. destruct p as [|c p]; simpl; [congruence | lia]. Qed.

Lemma ptr_add_1 (c : ascii) (p : string) : ptr_add (String c p) 1 = p.
Proof. reflexivity. Qed.

Lemma ptr_add_strlen (p : string) : ptr_add p (strlen p) = EmptyString.
Proof. induction p as [|c p IH]; simpl; [reflexivity | exact IH]. Qed.

Lemma strstr_unfold (haystack needle : string) :
  strstr haystack needle
  = if String.prefix needle haystack then Some haystack
    else
      match haystack with
      | EmptyString => None
      | String _ rest => strstr rest needle
      end.
Proof. destruct haystack; reflexivity. Qed.

Lemma strstr_length (haystack needle p : string) :
  strstr haystack needle = Some p -> String.length p <= String.length haystack.
Proof.
  induction haystack as [|c h IH]; rewrite strstr_unfold;
    destruct (String.prefix needle _); intros H; try discriminate;
    try (inversion H; subst; lia).
  specialize (IH H). simpl. lia.
Qed.

(** The scanner stops on the first [stop]: the text is what was scanned
    followed by the position returned, which starts with [stop]. *)
Lemma scan_iter_split (s : string) (stop : ascii) (e : string) :
  scan_iter s stop = Some e ->
  exists pre r, s = (pre ++ e)%string /\ e = String stop r.
Proof.
  functional induction (scan_iter s stop); intros H; try discriminate.
  - inversion H; subst. exists EmptyString, next. split; [reflexivity|].
    match goal with
    | E : Ascii.eqb _ _ = true |- _ => apply Ascii.eqb_eq in E; now subst
    end.
  - destruct (IHo H) as (pre & r & Hs & He).
    exists (String c (String _x pre)), r. simpl. now rewrite <- Hs.
  - destruct (IHo H) as (pre & r & Hs & He).
    exists (String c pre), r. simpl. now rewrite <- Hs.
Qed.

Lemma scan_to_unichar_split (s : string) (stop : ascii) (tok e : string) :
  scan_to_unichar s stop = Some (tok, e) ->
  s = (tok ++ e)%string /\ e = String stop (ptr_add e 1).
Proof.
  unfold scan_to_unichar. destruct (scan_iter s stop) as [iter|] eqn:Hi;
    [|discriminate].
  intros H; inversion H; subst; clear H.
  destruct (scan_iter_split _ _ _ Hi) as (pre & r & Hs & He).
  assert (Hd : ptr_diff e s = String.length pre).
  { unfold ptr_diff. rewrite Hs, length_append. lia. }
  rewrite Hd. rewrite Hs at 1 2. rewrite bson_strndup_append.
  split; [reflexivity|]. rewrite He. reflexivity.
Qed.

Lemma scan_to_unichar_advances (s : string) (stop : ascii) (tok e : string) :
  scan_to_unichar s stop = Some (tok, e) ->
  String.length e <= String.length s /\
  String.length (ptr_add e 1) < String.length s.
Proof.
  intros H. destruct (scan_to_unichar_split _ _ _ _ H) as [Hs He].
  assert (H1 : String.length s = String.length tok + String.length e)
    by (rewrite Hs at 1; apply length_append).
  assert (H2 : String.length e = S (String.length (ptr_add e 1)))
    by (rewrite He at 1; reflexivity).
  lia.
Qed.

Lemma scan_to_unichar_empty (stop : ascii) :
  scan_to_unichar EmptyString stop = None.
Proof. reflexivity. Qed.

Lemma scan_to_unichar_at_stop (stop : ascii) (rest : string) :
  scan_to_unichar (String stop rest) stop
  = Some (EmptyString, String stop rest).
Proof.
  unfold scan_to_unichar. simpl. rewrite Ascii.eqb_refl.
  unfold ptr_diff. rewrite Nat.sub_diag. reflexivity.
Qed.

(** *** Comparisons *)

Lemma uchar_inj (a b : ascii) : uchar a = uchar b -> a = b.
Proof.
  unfold uchar. intros H. apply N2Z.inj in H.
  rewrite <- (ascii_N_embedding a), <- (ascii_N_embedding b). now rewrite H.
Qed.

Lemma uchar_eqb (a b : ascii) : (uchar a =? uchar b)%Z = Ascii.eqb a b.
Proof.
  destruct (Ascii.eqb_spec a b) as [->|Hne].
  - apply Z.eqb_refl.
  - apply Z.eqb_neq. intros H. now apply Hne, uchar_inj.
Qed.

Lemma strcmp_zero (a b : string) : (strcmp a b =? 0)%Z = String.eqb a b.
Proof.
  revert b; induction a as [|ca a IH]; intros [|cb b]; simpl; try reflexivity.
  rewrite uchar_eqb. destruct (Ascii.eqb_spec ca cb) as [->|Hne].
  - apply IH.
  - apply Z.eqb_neq. intros H. apply Hne, uchar_inj. lia.
Qed.

Lemma strcasecmp_zero (a b : string) :
  (strcasecmp a b =? 0)%Z = String.eqb (lowercase a) (lowercase b).
Proof.
  revert b; induction a as [|ca a IH]; intros [|cb b];
    cbn [strcasecmp lowercase String.eqb]; try reflexivity.
  rewrite uchar_eqb.
  destruct (Ascii.eqb_spec (tolower ca) (tolower cb)) as [_|Hne].
  - apply IH.
  - apply Z.eqb_neq. intros H. apply Hne, uchar_inj. lia.
Qed.

(** ** Facts on the iteration of a loop body *)

Section Loops.

Context {St R : Type} (body : St -> outcome (jump St R)).

(** A body that always comes back and makes a measure decrease at each
    jump leaves the loop before the fuel is spent. *)
Lemma goto_again_total (mu : St -> nat) :
  (forall s, body s <> OutOfFuel) ->
  (forall s s', body s = Ret (Again s') -> mu s' < mu s) ->
  forall fuel s, mu s < fuel -> exists r, goto_again body fuel s = Ret r.
Proof.
  intros Hret Hdec. induction fuel as [|fuel IH]; intros s Hs; [lia|].
  simpl. destruct (body s) as [[s'|r]|] eqn:Hb.
  - apply IH. specialize (Hdec _ _ Hb). lia.
  - now exists r.
  - now apply Hret in Hb.
Qed.

(** An invariant of the body holds when the loop is left. *)
Lemma goto_again_invariant (I : St -> Prop) (Q : R -> Prop) :
  (forall s s', I s -> body s = Ret (Again s') -> I s') ->
  (forall s r, I s -> body s = Ret (Return r) -> Q r) ->
  forall fuel s r, I s -> goto_again body fuel s = Ret r -> Q r.
Proof.
  intros Hagain Hreturn. induction fuel as [|fuel IH]; intros s r Hs;
    simpl; [discriminate|].
  destruct (body s) as [[s'|r']|] eqn:Hb; intros H.
  - eapply IH; [|exact H]. eauto.
  - inversion H; subst. eauto.
  - discriminate.
Qed.

Lemma goto_again_unfold (fuel : nat) (s : St) :
  goto_again body (S fuel) s
  = match body s with
    | Ret (Again s') => goto_again body fuel s'
    | Ret (Return r) => Ret r
    | OutOfFuel => OutOfFuel
    end.
Proof. reflexivity. Qed.

(** The result of a loop does not depend on the fuel that was left. *)
Lemma goto_again_more_fuel (fuel fuel' : nat) (s : St) (r : R) :
  goto_again body fuel s = Ret r -> fuel <= fuel' ->
  goto_again body fuel' s = Ret r.
Proof.
  revert fuel' s. induction fuel as [|fuel IH]; intros fuel' s; simpl;
    [discriminate|].
  intros H Hle. destruct fuel' as [|fuel']; [lia|]. simpl.
  destruct (body s) as [[s'|r']|]; try discriminate; try assumption.
  apply IH; [assumption | lia].
Qed.

(** Beyond the measure of the state the fuel does not matter. *)
Lemma goto_again_fuel (mu : St -> nat) :
  (forall s, body s <> OutOfFuel) ->
  (forall s s', body s = Ret (Again s') -> mu s' < mu s) ->
  forall fuel fuel' s, mu s < fuel -> mu s < fuel' ->
  goto_again body fuel s = goto_again body fuel' s.
Proof.
  intros Hret Hdec fuel fuel' s Hf Hf'.
  destruct (goto_again_total mu Hret Hdec fuel s Hf) as [r Hr].
  destruct (goto_again_total mu Hret Hdec fuel' s Hf') as [r' Hr'].
  destruct (Nat.le_ge_cases fuel fuel') as [Hle|Hle].
  - rewrite Hr. symmetry. now apply goto_again_more_fuel with fuel.
  - rewrite Hr'. now apply goto_again_more_fuel with fuel'.
Qed.

End Loops.

(** ** Facts on the stages *)

Section Stages.

Variables host_size host_and_port_size : nat.

Local Opaque ptr_add.

Local Abbreviation append_host :=
  (mongoc_uri_append_host host_size host_and_port_size).
Local Abbreviation parse_host :=
  (mongoc_uri_parse_host host_size host_and_port_size).
Local Abbreviation parse_hosts_again :=
  (mongoc_uri_parse_hosts_again host_size host_and_port_size).
Local Abbreviation parse_hosts :=
  (mongoc_uri_parse_hosts host_size host_and_port_size).
Local Abbreviation parse := (mongoc_uri_parse host_size host_and_port_size).
Local Abbreviation new := (mongoc_uri_new host_size host_and_port_size).
Local Abbreviation stages := (all_stages host_size host_and_port_size).

Lemma sock_path_inv (str sock : string) :
  sock_path str = Some sock ->
  deref str = "/"%char /\ strstr str ".sock" = Some sock.
Proof.
  unfold sock_path. destruct (Ascii.eqb (deref str) "/") eqn:Hd;
    [|discriminate].
  apply Ascii.eqb_eq in Hd.
  destruct (strstr str ".sock") as [sock'|]; [|discriminate].
  match goal with |- (if ?c then _ else _) = _ -> _ => destruct c end;
    [|discriminate].
  intros H; inversion H; subst. auto.
Qed.

(** *** The cursor advances at each jump to [again:] *)

Lemma mongoc_uri_parse_hosts_again_advances st uri' str' ret' :
  parse_hosts_again st = Again (uri', str', ret') ->
  String.length str' < String.length (snd (fst st)).
Proof.
  destruct st as [[uri str] ret].
  unfold mongoc_uri_parse_hosts_again. cbn [fst snd].
  destruct (sock_path str) as [sock|] eqn:Hsock.
  - apply sock_path_inv in Hsock. destruct Hsock as [_ Hsock].
    apply strstr_length in Hsock.
    destruct (parse_host uri _) as [[|] u]; [|discriminate].
    destruct (Ascii.eqb (deref (ptr_add sock 5)) ",") eqn:Hc;
      [|discriminate].
    intros H; returned H.
    apply Ascii.eqb_eq in Hc.
    assert (Hn : deref (ptr_add sock 5) <> NUL) by (rewrite Hc; discriminate).
    apply ptr_add_advances in Hn.
    pose proof (ptr_add_length sock 5). lia.
  - destruct (scan_to_unichar str ",") as [[s e]|] eqn:Hcomma.
    + destruct (parse_host uri s) as [[|] u]; [|discriminate].
      intros H; returned H.
      now apply scan_to_unichar_advances in Hcomma.
    + destruct (match scan_to_unichar str "/" with
                | Some r => Some r
                | None => scan_to_unichar str "?"
                end) as [[s e]|].
      * destruct (parse_host uri s) as [[|] u]; discriminate.
      * destruct (negb (Ascii.eqb (deref str) NUL)); [|discriminate].
        destruct (parse_host uri str) as [[|] u]; discriminate.
Qed.

Lemma mongoc_uri_parse_read_prefs_again_advances st b' str' :
  mongoc_uri_parse_read_prefs_again st = Again (b', str') ->
  String.length str' < String.length (snd st).
Proof.
  destruct st as [b str].
  unfold mongoc_uri_parse_read_prefs_again. cbn [fst snd].
  destruct (scan_to_unichar str ",") as [[keyval e]|] eqn:Hcomma.
  - intros H; returned H.
    now apply scan_to_unichar_advances in Hcomma.
  - destruct (scan_to_unichar str ":") as [[key e]|]; discriminate.
Qed.

Lemma mongoc_uri_parse_read_prefs_returns uri str :
  exists uri', mongoc_uri_parse_read_prefs uri str = Ret uri'.
Proof.
  unfold mongoc_uri_parse_read_prefs.
  destruct (goto_again_total
              (fun st => Ret (mongoc_uri_parse_read_prefs_again st))
              (fun st => String.length (snd st))) with
    (fuel := S (strlen str)) (s := (bson_init, str)) as [b Hb].
  - discriminate.
  - intros [b s] [b' s'] H. inversion H.
    eapply mongoc_uri_parse_read_prefs_again_advances; eauto.
  - simpl. unfold strlen. lia.
  - rewrite Hb. simpl. eauto.
Qed.

Lemma mongoc_uri_parse_option_returns uri str :
  exists r, mongoc_uri_parse_option uri str = Ret r.
Proof.
  unfold mongoc_uri_parse_option.
  destruct (scan_to_unichar str "=") as [[key e]|]; [|eauto].
  repeat match goal with
         | |- exists r, (if ?c then _ else _) = _ => destruct c
         end; eauto.
  destruct (mongoc_uri_parse_read_prefs_returns uri (ptr_add e 1)) as [u Hu].
  rewrite Hu. simpl. eauto.
Qed.

Lemma mongoc_uri_parse_options_again_returns st :
  mongoc_uri_parse_options_again st <> OutOfFuel.
Proof.
  destruct st as [uri str]. unfold mongoc_uri_parse_options_again.
  destruct (scan_to_unichar str "&") as [[opt e]|].
  - destruct (mongoc_uri_parse_option_returns uri opt) as [[ok u] H].
    rewrite H. simpl. destruct ok; discriminate.
  - destruct (negb (Ascii.eqb (deref str) NUL)); [|discriminate].
    destruct (mongoc_uri_parse_option_returns uri str) as [[ok u] H].
    rewrite H. simpl. destruct ok; discriminate.
Qed.

Lemma mongoc_uri_parse_options_again_advances st uri' str' :
  mongoc_uri_parse_options_again st = Ret (Again (uri', str')) ->
  String.length str' < String.length (snd st).
Proof.
  destruct st as [uri str]. unfold mongoc_uri_parse_options_again.
  cbn [fst snd].
  destruct (scan_to_unichar str "&") as [[opt e]|] eqn:Hamp.
  - destruct (mongoc_uri_parse_option uri opt) as [[ok u]|]; simpl;
      [|discriminate].
    destruct ok; simpl; [|discriminate].
    intros H; returned H.
    now apply scan_to_unichar_advances in Hamp.
  - destruct (negb (Ascii.eqb (deref str) NUL)); [|discriminate].
    destruct (mongoc_uri_parse_option uri str) as [[ok u]|]; simpl;
      [|discriminate].
    destruct ok; discriminate.
Qed.

Lemma mongoc_uri_parse_options_returns uri str :
  exists r, mongoc_uri_parse_options uri str = Ret r.
Proof.
  unfold mongoc_uri_parse_options.
  apply goto_again_total with (mu := fun st => String.length (snd st)).
  - apply mongoc_uri_parse_options_again_returns.
  - intros [u s] [u' s'].
    apply mongoc_uri_parse_options_again_advances.
  - simpl. unfold strlen. lia.
Qed.

Lemma mongoc_uri_parse_hosts_returns uri str :
  exists r, parse_hosts uri str = Ret r.
Proof.
  unfold mongoc_uri_parse_hosts.
  apply goto_again_total with (mu := fun st => String.length (snd (fst st))).
  - discriminate.
  - intros st [[u' s'] r'] H. inversion H.
    eapply mongoc_uri_parse_hosts_again_advances; eauto.
  - simpl. unfold strlen. lia.
Qed.

Lemma mongoc_uri_parse_case_options_returns uri str :
  exists r, mongoc_uri_parse_case_options uri str = Ret r.
Proof.
  unfold mongoc_uri_parse_case_options.
  destruct (negb _); [|eauto].
  destruct (mongoc_uri_parse_options_returns uri (ptr_add str 1))
    as [[ok u] H].
  rewrite H. simpl. destruct ok; simpl; eauto.
Qed.

Lemma mongoc_uri_parse_switch_returns uri str :
  exists r, mongoc_uri_parse_switch uri str = Ret r.
Proof.
  unfold mongoc_uri_parse_switch.
  destruct (Ascii.eqb (deref str) "/").
  - destruct (if negb _ then _ else _) as [[ok u] e].
    destruct (negb ok); [eauto|].
    destruct (Ascii.eqb _ NUL); [eauto|].
    apply mongoc_uri_parse_case_options_returns.
  - destruct (Ascii.eqb (deref str) "?"); [|eauto].
    apply mongoc_uri_parse_case_options_returns.
Qed.

Lemma mongoc_uri_parse_returns uri str :
  exists r, parse uri str = Ret r.
Proof.
  unfold mongoc_uri_parse.
  destruct (mongoc_uri_parse_scheme str) as [s1|]; [|eauto].
  destruct (Ascii.eqb (deref s1) NUL); [eauto|].
  destruct (mongoc_uri_parse_userpass uri s1) as [[ok u1] e1].
  destruct (negb ok); [eauto|].
  destruct (Ascii.eqb _ NUL); [eauto|].
  destruct (mongoc_uri_parse_hosts_returns u1 (written e1 s1))
    as [[[ok2 u2] e2] H].
  rewrite H. simpl. destruct (negb ok2); [eauto|].
  apply mongoc_uri_parse_switch_returns.
Qed.

Lemma mongoc_uri_new_returns uri_string :
  exists r, new uri_string = Ret r.
Proof.
  unfold mongoc_uri_new.
  destruct (mongoc_uri_parse_returns uri_zero uri_string) as [[ok u] H].
  rewrite H. simpl. destruct (negb ok); eauto.
Qed.

(** *** What each stage leaves untouched *)

Lemma grown_nil uri : grown uri [] [] = uri.
Proof. destruct uri. unfold grown. simpl. now rewrite !app_nil_r. Qed.

Lemma grown_grown uri lo lr lo' lr' :
  grown (grown uri lo lr) lo' lr' = grown uri (lo ++ lo') (lr ++ lr').
Proof. unfold grown. simpl. now rewrite !app_assoc. Qed.

Lemma grown_options uri l : set_options uri (options uri ++ l) = grown uri l [].
Proof. destruct uri. unfold grown. simpl. now rewrite app_nil_r. Qed.

Lemma grown_read_prefs uri l :
  set_read_prefs uri (read_prefs uri ++ l) = grown uri [] l.
Proof. destruct uri. unfold grown. simpl. now rewrite app_nil_r. Qed.

Lemma set_hosts_nil uri : set_hosts uri (hosts uri ++ []) = uri.
Proof. destruct uri. simpl. now rewrite app_nil_r. Qed.

Lemma mongoc_uri_parse_host_inv uri str ok uri' :
  parse_host uri str = (ok, uri') ->
  (ok = false /\ uri' = uri) \/
  (ok = true /\ exists hostname port, uri' = append_host uri hostname port).
Proof.
  unfold mongoc_uri_parse_host.
  destruct (scan_to_unichar str ":") as [[hostname e]|].
  - destruct (negb _); intros H; returned H; eauto.
  - intros H; returned H; eauto.
Qed.

(** The host list only appends hosts, and returns TRUE only after it
    appended one. *)
Lemma mongoc_uri_parse_hosts_inv uri str ok uri' end_ :
  parse_hosts uri str = Ret (ok, uri', end_) ->
  exists l, uri' = set_hosts uri (hosts uri ++ l) /\ (ok = true -> l <> []).
Proof.
  unfold mongoc_uri_parse_hosts.
  apply (goto_again_invariant
           (fun st => Ret (parse_hosts_again st))
           (fun st => exists l, fst (fst st) = set_hosts uri (hosts uri ++ l)
                                /\ (snd st = true -> l <> []))
           (fun r => exists l, snd (fst r) = set_hosts uri (hosts uri ++ l)
                               /\ (fst (fst r) = true -> l <> []))).
  - intros [[u s] ret] [[u' s'] ret'] (l & Hu & Hret) H. cbn [fst snd] in *.
    injection H as H. unfold mongoc_uri_parse_hosts_again in H. subst u.
    destruct (sock_path s) as [sock|].
    + destruct (parse_host _ _) as [ok1 u1] eqn:Hh.
      apply mongoc_uri_parse_host_inv in Hh.
      destruct Hh as [[-> ->]|(-> & h & p & ->)]; [discriminate|].
      destruct (Ascii.eqb _ ","); [|discriminate].
      returned H. eexists (l ++ [_]). split.
      * unfold mongoc_uri_append_host. simpl. now rewrite <- app_assoc.
      * intros _ E. now apply app_eq_nil in E.
    + destruct (scan_to_unichar s ",") as [[tok e]|].
      * destruct (parse_host _ _) as [ok1 u1] eqn:Hh.
        apply mongoc_uri_parse_host_inv in Hh.
        destruct Hh as [[-> ->]|(-> & h & p & ->)]; [discriminate|].
        returned H. eexists (l ++ [_]). split.
        -- unfold mongoc_uri_append_host. simpl. now rewrite <- app_assoc.
        -- intros _ E. now apply app_eq_nil in E.
      * destruct (match scan_to_unichar s "/" with
                  | Some r => Some r
                  | None => scan_to_unichar s "?"
                  end) as [[tok e]|].
        -- destruct (parse_host _ _) as [[|] u1]; discriminate.
        -- destruct (negb _); [|discriminate].
           destruct (parse_host _ _) as [[|] u1]; discriminate.
  - intros [[u s] ret] [[ok' u'] e'] (l & Hu & Hret) H. cbn [fst snd] in *.
    injection H as H. unfold mongoc_uri_parse_hosts_again in H. subst u.
    assert (Hhost : forall tok ok1 u1,
               parse_host (set_hosts uri (hosts uri ++ l)) tok = (ok1, u1) ->
               exists l', u1 = set_hosts uri (hosts uri ++ l')
                          /\ (ok1 = true -> l' <> [])).
    { intros tok ok1 u1 Hh. apply mongoc_uri_parse_host_inv in Hh.
      destruct Hh as [[-> ->]|(-> & h & p & ->)].
      - exists l. split; [reflexivity | discriminate].
      - eexists (l ++ [_]). split.
        + unfold mongoc_uri_append_host. simpl. now rewrite <- app_assoc.
        + intros _ E. now apply app_eq_nil in E. }
    destruct (sock_path s) as [sock|].
    + destruct (parse_host _ _) as [ok1 u1] eqn:Hh.
      apply Hhost in Hh. destruct ok1.
      * destruct (Ascii.eqb _ ","); [discriminate|].
        returned H. exact Hh.
      * returned H. exact Hh.
    + destruct (scan_to_unichar s ",") as [[tok e]|].
      * destruct (parse_host _ _) as [ok1 u1] eqn:Hh.
        apply Hhost in Hh. destruct ok1; [discriminate|].
        returned H. exact Hh.
      * destruct (match scan_to_unichar s "/" with
                  | Some r => Some r
                  | None => scan_to_unichar s "?"
                  end) as [[tok e]|].
        -- destruct (parse_host _ _) as [ok1 u1] eqn:Hh.
           apply Hhost in Hh.
           destruct ok1; returned H; exact Hh.
        -- destruct (negb _).
           ++ destruct (parse_host _ _) as [ok1 u1] eqn:Hh.
              apply Hhost in Hh.
              destruct ok1; returned H; exact Hh.
           ++ returned H. exists l. split; auto.
  - exists []. cbn [fst snd]. split; [|discriminate].
    now rewrite set_hosts_nil.
Qed.

(** *** The tag loop and the splitting of the specification *)

Lemma bson_strndup_ptr_diff (pre e : string) :
  bson_strndup (pre ++ e) (ptr_diff e (pre ++ e)) = pre.
Proof.
  unfold ptr_diff. rewrite length_append.
  replace (String.length pre + String.length e - String.length e)
    with (String.length pre) by lia.
  apply bson_strndup_append.
Qed.

Lemma split_unescaped_scan_iter (s : string) (sep : ascii) (e : string) :
  scan_iter s sep = Some e ->
  exists pre, s = (pre ++ e)%string /\
    forall tok, split_unescaped sep tok s
                = (tok ++ pre)%string
                  :: split_unescaped sep EmptyString (ptr_add e 1).
Proof.
  functional induction (scan_iter s sep); intros H; try discriminate.
  - injection H as <-. exists EmptyString. split; [reflexivity|].
    intros tok. cbn [split_unescaped].
    match goal with E : Ascii.eqb _ _ = true |- _ => rewrite E end.
    now rewrite append_empty_r.
  - destruct (IHo H) as (pre & Hs & Hsplit).
    exists (String c (String _x pre)). split; [simpl; now rewrite <- Hs|].
    intros tok. cbn [split_unescaped].
    decided.
    rewrite Hsplit, append_assoc. reflexivity.
  - destruct (IHo H) as (pre & Hs & Hsplit).
    exists (String c pre). split; [simpl; now rewrite <- Hs|].
    intros tok. cbn [split_unescaped].
    decided.
    rewrite Hsplit, append_assoc. reflexivity.
Qed.

Lemma split_unescaped_scan_iter_none (s : string) (sep : ascii) :
  scan_iter s sep = None ->
  forall tok, split_unescaped sep tok s = [(tok ++ s)%string].
Proof.
  functional induction (scan_iter s sep); intros H tok; try discriminate;
    cbn [split_unescaped];
    decided.
  - now rewrite append_empty_r.
  - reflexivity.
  - rewrite (IHo H), append_assoc. reflexivity.
  - rewrite (IHo H), append_assoc. reflexivity.
Qed.

Lemma split_unescaped_scan (s : string) (sep : ascii) (tok e : string) :
  scan_to_unichar s sep = Some (tok, e) ->
  split_unescaped sep EmptyString s
  = tok :: split_unescaped sep EmptyString (ptr_add e 1).
Proof.
  unfold scan_to_unichar.
  destruct (scan_iter s sep) as [iter|] eqn:Hi; [|discriminate].
  intros H; returned H.
  destruct (split_unescaped_scan_iter _ _ _ Hi) as (pre & Hs & Hsplit).
  rewrite Hsplit. f_equal. cbn [append]. rewrite Hs.
  now rewrite bson_strndup_ptr_diff.
Qed.

Lemma split_unescaped_scan_none (s : string) (sep : ascii) :
  scan_to_unichar s sep = None ->
  split_unescaped sep EmptyString s = [s].
Proof.
  unfold scan_to_unichar.
  destruct (scan_iter s sep) as [iter|] eqn:Hi; [discriminate|].
  intros _. now apply split_unescaped_scan_iter_none.
Qed.

Lemma mongoc_uri_parse_read_prefs_loop (fuel : nat) (b : bson_t)
  (str : string) :
  String.length str < fuel ->
  goto_again (fun st => Ret (mongoc_uri_parse_read_prefs_again st))
    fuel (b, str)
  = Ret (b ++ flat_map tag_of_token
                (split_unescaped "," EmptyString str)).
Proof.
  revert b str. induction fuel as [|fuel IH]; intros b str Hlen; [lia|].
  rewrite goto_again_unfold. unfold mongoc_uri_parse_read_prefs_again.
  destruct (scan_to_unichar str ",") as [[keyval e]|] eqn:Hcomma.
  - rewrite (split_unescaped_scan _ _ _ _ Hcomma).
    apply scan_to_unichar_advances in Hcomma.
    rewrite IH by lia. cbn [flat_map]. rewrite app_assoc.
    unfold tag_of_token at 2.
    destruct (scan_to_unichar keyval ":") as [[key ek]|];
      [reflexivity | now rewrite app_nil_r].
  - rewrite (split_unescaped_scan_none _ _ Hcomma). cbn [flat_map].
    rewrite app_nil_r. unfold tag_of_token.
    destruct (scan_to_unichar str ":") as [[key ek]|];
      [reflexivity | now rewrite app_nil_r].
Qed.

Lemma mongoc_uri_parse_read_prefs_eq (uri : mongoc_uri_t) (value : string) :
  mongoc_uri_parse_read_prefs uri value
  = Ret (set_read_prefs uri
           (read_prefs uri
              ++ [(tag_group_key uri, BSON_DOCUMENT (tag_group value))])).
Proof.
  unfold mongoc_uri_parse_read_prefs.
  rewrite mongoc_uri_parse_read_prefs_loop by (unfold strlen; lia).
  reflexivity.
Qed.

(** *** The coercion of one option *)

Lemma strcasecmp_literal (key name : string) :
  lowercase name = name ->
  (strcasecmp key name =? 0)%Z = String.eqb (lowercase key) name.
Proof. intros H. now rewrite strcasecmp_zero, H. Qed.

Lemma mongoc_uri_parse_option_stored uri str key end_key :
  scan_to_unichar str "=" = Some (key, end_key) ->
  key_in key ["readpreferencetags"] = false ->
  mongoc_uri_parse_option uri str
  = Ret (true,
         set_options uri
           (options uri ++ [(key, coerced key (ptr_add end_key 1))])).
Proof.
  intros Hscan Hkey. unfold mongoc_uri_parse_option. rewrite Hscan.
  rewrite !strcasecmp_literal by reflexivity. rewrite strcmp_zero.
  unfold coerced, key_in, int32_keys, bool_keys in *.
  cbn [existsb] in *. rewrite orb_false_r in Hkey. rewrite Hkey.
  generalize (lowercase key). intros k.
  destruct (String.eqb k "connecttimeoutms"); [reflexivity|].
  destruct (String.eqb k "sockettimeoutms"); [reflexivity|].
  destruct (String.eqb k "maxpoolsize"); [reflexivity|].
  destruct (String.eqb k "minpoolsize"); [reflexivity|].
  destruct (String.eqb k "maxidletimems"); [reflexivity|].
  destruct (String.eqb k "waitqueuemultiple"); [reflexivity|].
  destruct (String.eqb k "waitqueuetimeoutms"); [reflexivity|].
  destruct (String.eqb k "wtimeoutms"); [reflexivity|].
  cbn [orb].
  destruct (String.eqb k "w").
  { cbn [orb]. destruct (_ || _); reflexivity. }
  destruct (String.eqb k "journal"); [reflexivity|].
  destruct (String.eqb k "slaveok"); [reflexivity|].
  destruct (String.eqb k "ssl"); reflexivity.
Qed.

Lemma mongoc_uri_parse_option_tags uri str key end_key :
  scan_to_unichar str "=" = Some (key, end_key) ->
  key_in key ["readpreferencetags"] = true ->
  mongoc_uri_parse_option uri str
  = Ret (true,
         set_read_prefs uri
           (read_prefs uri
              ++ [(tag_group_key uri,
                   BSON_DOCUMENT (tag_group (ptr_add end_key 1)))])).
Proof.
  intros Hscan Hkey. unfold mongoc_uri_parse_option. rewrite Hscan.
  rewrite !strcasecmp_literal by reflexivity.
  unfold key_in in Hkey. cbn [existsb] in Hkey.
  rewrite orb_false_r in Hkey. apply String.eqb_eq in Hkey. rewrite Hkey.
  rewrite mongoc_uri_parse_read_prefs_eq. reflexivity.
Qed.

Lemma mongoc_uri_parse_option_inv uri str ok uri' :
  mongoc_uri_parse_option uri str = Ret (ok, uri') ->
  exists lo lr, uri' = grown uri lo lr.
Proof.
  destruct (scan_to_unichar str "=") as [[key e]|] eqn:Hscan.
  - destruct (key_in key ["readpreferencetags"]) eqn:Hkey.
    + rewrite (mongoc_uri_parse_option_tags _ _ _ _ Hscan Hkey).
      intros H; returned H.
      rewrite grown_read_prefs. eauto.
    + rewrite (mongoc_uri_parse_option_stored _ _ _ _ Hscan Hkey).
      intros H; returned H.
      rewrite grown_options. eauto.
  - unfold mongoc_uri_parse_option. rewrite Hscan.
    intros H; returned H.
    exists [], []. now rewrite grown_nil.
Qed.

Lemma mongoc_uri_parse_options_inv uri str ok uri' :
  mongoc_uri_parse_options uri str = Ret (ok, uri') ->
  exists lo lr, uri' = grown uri lo lr.
Proof.
  unfold mongoc_uri_parse_options.
  apply (goto_again_invariant mongoc_uri_parse_options_again
           (fun st => exists lo lr, fst st = grown uri lo lr)
           (fun r => exists lo lr, snd r = grown uri lo lr)).
  - intros [u s] [u' s'] (lo & lr & Hu) H. cbn [fst snd] in *. subst u.
    unfold mongoc_uri_parse_options_again in H.
    destruct (scan_to_unichar s "&") as [[opt e]|].
    + destruct (mongoc_uri_parse_option _ opt) as [[ok1 u1]|] eqn:Ho;
        cbn [bind] in H; [|discriminate].
      apply mongoc_uri_parse_option_inv in Ho.
      destruct Ho as (lo1 & lr1 & ->). rewrite grown_grown in H.
      destruct ok1; cbn [negb] in H; [|discriminate].
      returned H. eauto.
    + destruct (negb _); [|discriminate].
      destruct (mongoc_uri_parse_option _ s) as [[ok1 u1]|];
        cbn [bind] in H; [|discriminate].
      destruct ok1; discriminate.
  - intros [u s] [ok' u'] (lo & lr & Hu) H. cbn [fst snd] in *. subst u.
    unfold mongoc_uri_parse_options_again in H.
    destruct (scan_to_unichar s "&") as [[opt e]|].
    + destruct (mongoc_uri_parse_option _ opt) as [[ok1 u1]|] eqn:Ho;
        cbn [bind] in H; [|discriminate].
      apply mongoc_uri_parse_option_inv in Ho.
      destruct Ho as (lo1 & lr1 & ->). rewrite grown_grown in H.
      destruct ok1; cbn [negb] in H; [discriminate|].
      returned H. eauto.
    + destruct (negb _).
      * destruct (mongoc_uri_parse_option _ s) as [[ok1 u1]|] eqn:Ho;
          cbn [bind] in H; [|discriminate].
        apply mongoc_uri_parse_option_inv in Ho.
        destruct Ho as (lo1 & lr1 & ->). rewrite grown_grown in H.
        destruct ok1; returned H; eauto.
      * returned H; eauto.
  - exists [], []. cbn [fst]. now rewrite grown_nil.
Qed.

(** *** The end of the parse *)

Lemma set_database_same uri : set_database uri (database uri) = uri.
Proof. now destruct uri. Qed.

Lemma mongoc_uri_parse_case_options_inv uri str ok uri' :
  mongoc_uri_parse_case_options uri str = Ret (ok, uri') ->
  exists lo lr, uri' = grown uri lo lr.
Proof.
  unfold mongoc_uri_parse_case_options. destruct (negb _).
  - destruct (mongoc_uri_parse_options uri _) as [[ok1 u1]|] eqn:Ho;
      cbn [bind]; [|discriminate].
    apply mongoc_uri_parse_options_inv in Ho.
    destruct ok1; intros H; returned H; exact Ho.
  - intros H; returned H.
    exists [], []. now rewrite grown_nil.
Qed.

Lemma mongoc_uri_parse_database_inv uri str ok uri' end_ :
  mongoc_uri_parse_database uri str = (ok, uri', end_) ->
  ok = true /\ exists d, uri' = set_database uri d.
Proof.
  unfold mongoc_uri_parse_database.
  destruct (scan_to_unichar str "?") as [[db e]|].
  - intros H; returned H; eauto.
  - destruct (negb _); intros H; returned H; eauto.
Qed.

Lemma mongoc_uri_parse_switch_inv uri str ok uri' :
  mongoc_uri_parse_switch uri str = Ret (ok, uri') ->
  exists d lo lr, uri' = grown (set_database uri d) lo lr.
Proof.
  unfold mongoc_uri_parse_switch. destruct (Ascii.eqb (deref str) "/").
  - destruct (if negb _ then _ else _) as [[ok1 u1] e1] eqn:Hdb.
    assert (Hu1 : exists d, u1 = set_database uri d).
    { destruct (negb _).
      - now apply mongoc_uri_parse_database_inv in Hdb.
      - injection Hdb as <- <- <-. exists (database uri).
        now rewrite set_database_same. }
    destruct Hu1 as [d ->]. clear Hdb.
    destruct (negb ok1).
    { intros H; injection H as <- <-.
      exists d, [], []. now rewrite grown_nil. }
    destruct (Ascii.eqb _ NUL).
    { intros H; injection H as <- <-.
      exists d, [], []. now rewrite grown_nil. }
    intros H. apply mongoc_uri_parse_case_options_inv in H.
    destruct H as (lo & lr & ->). eauto.
  - assert (Hsame : forall lo lr,
               grown uri lo lr = grown (set_database uri (database uri)) lo lr)
      by (intros; now rewrite set_database_same).
    destruct (Ascii.eqb (deref str) "?").
    + intros H. apply mongoc_uri_parse_case_options_inv in H.
      destruct H as (lo & lr & ->). eauto.
    + intros H; injection H as <- <-.
      exists (database uri), [], []. now rewrite set_database_same, grown_nil.
Qed.

Lemma mongoc_uri_parse_true uri str uri' :
  parse uri str = Ret (true, uri') -> stages uri str uri'.
Proof.
  unfold mongoc_uri_parse, all_stages.
  destruct (mongoc_uri_parse_scheme str) as [s1|]; [|discriminate].
  destruct (Ascii.eqb (deref s1) NUL) eqn:Hn1; [discriminate|].
  destruct (mongoc_uri_parse_userpass uri s1) as [[ok1 u1] e1] eqn:Hup.
  destruct ok1; cbn [negb]; [|discriminate].
  destruct (Ascii.eqb (deref (written e1 s1)) NUL) eqn:Hn2; [discriminate|].
  destruct (parse_hosts u1 (written e1 s1)) as [[[ok2 u2] e2]|] eqn:Hh;
    cbn [bind]; [|discriminate].
  destruct ok2; cbn [negb]; [|discriminate].
  intros H. apply Ascii.eqb_neq in Hn1, Hn2.
  exists s1, u1, e1, u2, e2. repeat split; assumption.
Qed.

Lemma mongoc_uri_parse_userpass_inv uri str ok uri' end_ :
  mongoc_uri_parse_userpass uri str = (ok, uri', end_) ->
  exists user pass, uri' = set_password (set_username uri user) pass.
Proof.
  unfold mongoc_uri_parse_userpass.
  assert (Hsame : uri = set_password (set_username uri (username uri))
                          (password uri)) by now destruct uri.
  destruct (scan_to_unichar str "@") as [[s e]|].
  - destruct (scan_to_unichar s ":") as [[user e']|];
      intros H; returned H; eauto.
    exists None, (password uri). now destruct uri.
  - intros H; returned H; eauto.
Qed.

Lemma all_stages_hosts uri str uri' :
  stages uri str uri' -> hosts uri' <> [].
Proof.
  intros (s1 & u1 & e1 & u2 & e2 & _ & _ & _ & _ & Hh & Hsw).
  apply mongoc_uri_parse_hosts_inv in Hh. destruct Hh as (l & -> & Hl).
  apply mongoc_uri_parse_switch_inv in Hsw.
  destruct Hsw as (d & lo & lr & ->). cbn.
  intros E. apply app_eq_nil in E. destruct E as [_ E]. now apply Hl.
Qed.

Lemma mongoc_uri_new_inv uri_string uri :
  new uri_string = Ret (Some uri) ->
  exists uri', parse uri_zero uri_string = Ret (true, uri') /\
               uri = set_str uri' (Some uri_string).
Proof.
  unfold mongoc_uri_new.
  destruct (parse uri_zero uri_string) as [[ok u]|]; cbn [bind];
    [|discriminate].
  destruct ok; cbn [negb]; [|discriminate].
  intros H; returned H. eauto.
Qed.

Lemma mongoc_uri_parse_scheme_ok (rest : string) :
  mongoc_uri_parse_scheme ("mongodb://" ++ rest) = Some rest.
Proof. vm_compute. reflexivity. Qed.

(** *** The properties of the whole parse *)

(** C1. [mongoc_uri_new] is atomic.  Either [mongoc_uri_parse] returned
    TRUE, every stage succeeded and the caller gets the structure that the
    stages filled, with the input kept in [str]; or [mongoc_uri_parse]
    returned FALSE and the caller gets NULL, whatever the stages had
    already stored in the structure.  The input "mongodb://h/?novalue"
    shows the second case with a host and a database already stored. *)
Theorem mongoc_uri_new_atomic :
  (forall uri_string,
      (exists uri,
          parse uri_zero uri_string = Ret (true, uri) /\
          stages uri_zero uri_string uri /\
          new uri_string = Ret (Some (set_str uri (Some uri_string)))) \/
      (exists partial,
          parse uri_zero uri_string = Ret (false, partial) /\
          new uri_string = Ret None)) /\
  (parse uri_zero "mongodb://h/?novalue"
   = Ret (false,
          set_database (append_host uri_zero "h" MONGOC_DEFAULT_PORT)
            (Some EmptyString)) /\
   new "mongodb://h/?novalue" = Ret None).
Proof.
  split.
  - intros uri_string. unfold mongoc_uri_new.
    destruct (mongoc_uri_parse_returns uri_zero uri_string) as [[ok u] H].
    destruct ok.
    + left. exists u. rewrite H. repeat split.
      now apply mongoc_uri_parse_true.
    + right. exists u. rewrite H. split; reflexivity.
  - split; vm_compute; reflexivity.
Qed.

(** C2. On every input on which the parse succeeds the list of hosts of
    the result is not empty. *)
Theorem mongoc_uri_new_hosts_nonempty (uri_string : string)
  (uri : mongoc_uri_t) :
  new uri_string = Ret (Some uri) -> mongoc_uri_get_hosts uri <> [].
Proof.
  intros H. apply mongoc_uri_new_inv in H. destruct H as (u & Hp & ->).
  apply mongoc_uri_parse_true, all_stages_hosts in Hp. exact Hp.
Qed.

(** C9. The parse returns on every input: the bound on the iterations of
    the loops is never reached, because the scanner returns a position
    inside the text it was given and each jump back to [again:], in the
    host list, the option list and the tag group, leaves a strictly
    shorter text to read.  The result of a loop is the same for every
    bound above the length of the text. *)
Theorem mongoc_uri_new_terminates :
  (forall uri_string, exists r, new uri_string = Ret r) /\
  (forall str stop tok e,
      scan_to_unichar str stop = Some (tok, e) ->
      String.length e <= String.length str /\
      String.length (ptr_add e 1) < String.length str) /\
  (forall uri str ret uri' str' ret',
      parse_hosts_again (uri, str, ret) = Again (uri', str', ret') ->
      String.length str' < String.length str) /\
  (forall uri str uri' str',
      mongoc_uri_parse_options_again (uri, str) = Ret (Again (uri', str')) ->
      String.length str' < String.length str) /\
  (forall b str b' str',
      mongoc_uri_parse_read_prefs_again (b, str) = Again (b', str') ->
      String.length str' < String.length str) /\
  (forall fuel uri str,
      strlen str < fuel ->
      goto_again (fun st => Ret (parse_hosts_again st)) fuel (uri, str, false)
      = parse_hosts uri str) /\
  (forall fuel uri str,
      strlen str < fuel ->
      goto_again mongoc_uri_parse_options_again fuel (uri, str)
      = mongoc_uri_parse_options uri str) /\
  (forall fuel b str,
      strlen str < fuel ->
      goto_again (fun st => Ret (mongoc_uri_parse_read_prefs_again st))
        fuel (b, str)
      = goto_again (fun st => Ret (mongoc_uri_parse_read_prefs_again st))
          (S (strlen str)) (b, str)).
Proof.
  split; [|split; [|split; [|split; [|split; [|split; [|split]]]]]].
  - apply mongoc_uri_new_returns.
  - intros str stop tok e H. now apply scan_to_unichar_advances in H.
  - intros uri str ret uri' str' ret' H.
    now apply mongoc_uri_parse_hosts_again_advances in H.
  - intros uri str uri' str' H.
    now apply mongoc_uri_parse_options_again_advances in H.
  - intros b str b' str' H.
    now apply mongoc_uri_parse_read_prefs_again_advances in H.
  - intros fuel uri str Hfuel. unfold mongoc_uri_parse_hosts.
    apply goto_again_fuel with (mu := fun st => strlen (snd (fst st)));
      cbn [fst snd]; try lia; [discriminate|].
    intros st [[u' s'] r'] H. injection H as H.
    now apply mongoc_uri_parse_hosts_again_advances in H.
  - intros fuel uri str Hfuel. unfold mongoc_uri_parse_options.
    apply goto_again_fuel with (mu := fun st => strlen (snd st));
      cbn [fst snd]; try lia.
    + apply mongoc_uri_parse_options_again_returns.
    + intros st [u' s'] H.
      now apply mongoc_uri_parse_options_again_advances in H.
  - intros fuel b str Hfuel.
    rewrite !mongoc_uri_parse_read_prefs_loop by (unfold strlen in *; lia).
    reflexivity.
Qed.


(** C5. The options are an ordered multimap.  An option whose key is
    not [readpreferencetags] is appended after the options that are
    already stored, with the value that the table of coercions gives,
    whether or not its key is already there; the option list never
    removes or changes an option that was stored; and the two [w] of
    "mongodb://h/?w=majority&w=3" are both stored, in their order. *)
Theorem options_are_appended :
  (forall uri str key end_key,
      scan_to_unichar str "=" = Some (key, end_key) ->
      key_in key ["readpreferencetags"] = false ->
      mongoc_uri_parse_option uri str
      = Ret (true,
             set_options uri
               (mongoc_uri_get_options uri
                  ++ [(key, coerced key (ptr_add end_key 1))]))) /\
  (forall uri str ok uri',
      mongoc_uri_parse_options uri str = Ret (ok, uri') ->
      exists l,
        mongoc_uri_get_options uri' = mongoc_uri_get_options uri ++ l) /\
  new "mongodb://h/?w=majority&w=3"
  = Ret (Some
           {| str := Some "mongodb://h/?w=majority&w=3";
              hosts := [host_link host_size host_and_port_size "h" 27017];
              username := None;
              password := None;
              database := Some EmptyString;
              options := [("w", BSON_UTF8 "majority"); ("w", BSON_INT32 3)];
              read_prefs := [];
              write_concern := [] |}).
Proof.
  split; [|split].
  - intros uri str key end_key Hscan Hkey.
    now apply mongoc_uri_parse_option_stored.
  - intros uri str ok uri' H. apply mongoc_uri_parse_options_inv in H.
    destruct H as (lo & lr & ->). exists lo. reflexivity.
  - vm_compute. reflexivity.
Qed.

(** What the option stage does with a [readpreferencetags] option that
    reaches it.  The option appends one document to
    [read_prefs], under the number of the documents already there; the
    document holds, in their order, the key and the value of the tokens of
    the value, split at the unescaped commas, that have an unescaped [:],
    and nothing for the other tokens; the option is never refused and
    leaves the options untouched.  The second option of
    "mongodb://h/?readpreferencetags=dc:ny&readpreferencetags=rack" has
    no [:] and gives an empty group. *)
Theorem readpreferencetags_appends_one_group :
  (forall uri value,
      mongoc_uri_parse_read_prefs uri value
      = Ret (set_read_prefs uri
               (mongoc_uri_get_read_preferences uri
                  ++ [(tag_group_key uri,
                       BSON_DOCUMENT (tag_group value))]))) /\
  (forall uri str key end_key,
      scan_to_unichar str "=" = Some (key, end_key) ->
      key_in key ["readpreferencetags"] = true ->
      mongoc_uri_parse_option uri str
      = Ret (true,
             set_read_prefs uri
               (mongoc_uri_get_read_preferences uri
                  ++ [(tag_group_key uri,
                       BSON_DOCUMENT (tag_group (ptr_add end_key 1)))]))) /\
  tag_group "dc:ny,rack,r\,k:1,:,"
  = [("dc", BSON_UTF8 "ny"); ("r\,k", BSON_UTF8 "1");
     (EmptyString, BSON_UTF8 EmptyString)] /\
  new "mongodb://h/?readpreferencetags=dc:ny&readpreferencetags=rack"
  = Ret (Some
           {| str :=
                Some
                  "mongodb://h/?readpreferencetags=dc:ny&readpreferencetags=rack";
              hosts := [host_link host_size host_and_port_size "h" 27017];
              username := None;
              password := None;
              database := Some EmptyString;
              options := [];
              read_prefs :=
                [("0", BSON_DOCUMENT [("dc", BSON_UTF8 "ny")]);
                 ("1", BSON_DOCUMENT [])];
              write_concern := [] |}).
Proof.
  split; [|split; [|split]].
  - apply mongoc_uri_parse_read_prefs_eq.
  - intros uri str key end_key Hscan Hkey.
    now apply (mongoc_uri_parse_option_tags uri str key end_key).
  - vm_compute. reflexivity.
  - vm_compute. reflexivity.
Qed.

(** C8, on the code.  An unescaped comma in the value of a
    [readpreferencetags] option never reaches the option stage: the host
    list looks for a comma in all the text that is left before it looks
    for the [/] or the [?] that ends the hosts.  So the two tag groups of
    "mongodb://h/?readpreferencetags=dc:ny,rack:1&readpreferencetags=dc:sf"
    are not read: the host list takes the text up to the comma as a host
    token, refuses its port, and the parse fails; and in
    "mongodb://h/?readpreferencetags=a,b:1" the token without [:] is not
    dropped: the parse succeeds with the two hosts
    "h/?readpreferencetags=a" and "b", port 1, and no tag group. *)
Theorem option_commas_taken_by_host_list :
  parse_hosts uri_zero
    "h/?readpreferencetags=dc:ny,rack:1&readpreferencetags=dc:sf"
  = Ret (false, uri_zero, None) /\
  new "mongodb://h/?readpreferencetags=dc:ny,rack:1&readpreferencetags=dc:sf"
  = Ret None /\
  new "mongodb://h/?readpreferencetags=a,b:1"
  = Ret (Some
           {| str := Some "mongodb://h/?readpreferencetags=a,b:1";
              hosts :=
                [host_link host_size host_and_port_size
                   "h/?readpreferencetags=a" 27017;
                 host_link host_size host_and_port_size "b" 1];
              username := None; password := None; database := None;
              options := []; read_prefs := []; write_concern := [] |}).
Proof. split; [|split]; vm_compute; reflexivity. Qed.

(** *** The host list and the database *)

Lemma sock_path_not_slash (c : ascii) (rest : string) :
  c <> "/"%char -> sock_path (String c rest) = None.
Proof.
  intros Hc. unfold sock_path. cbn [deref].
  apply Ascii.eqb_neq in Hc. now rewrite Hc.
Qed.

Lemma mongoc_uri_parse_host_empty uri :
  parse_host uri EmptyString
  = (true, append_host uri EmptyString MONGOC_DEFAULT_PORT).
Proof. reflexivity. Qed.

(** C10. An empty host token is accepted.  The scanner returns the empty
    text, not NULL, when the text starts with the character it looks for;
    the empty token is a host with the empty name, the default port and
    the family of a network host; and the host list appends it when the
    text that is left starts with a comma, or with a [/] or a [?] that
    ends the list.  So "mongodb:///" and "mongodb://,h" are parsed and
    have a host with the empty name. *)
Theorem empty_host_token_accepted :
  (forall stop rest,
      scan_to_unichar (String stop rest) stop
      = Some (EmptyString, String stop rest)) /\
  (forall uri,
      parse_host uri EmptyString
      = (true, append_host uri EmptyString MONGOC_DEFAULT_PORT) /\
      mongoc_uri_get_hosts (append_host uri EmptyString MONGOC_DEFAULT_PORT)
      = mongoc_uri_get_hosts uri
          ++ [host_link host_size host_and_port_size EmptyString 27017]) /\
  (host (host_link host_size host_and_port_size EmptyString 27017)
   = EmptyString /\
   port (host_link host_size host_and_port_size EmptyString 27017)
   = 27017%Z /\
   family (host_link host_size host_and_port_size EmptyString 27017)
   = AF_INET) /\
  (forall uri rest ret,
      parse_hosts_again (uri, String "," rest, ret)
      = Again (append_host uri EmptyString MONGOC_DEFAULT_PORT, rest, true)) /\
  (forall uri rest ret,
      sock_path (String "/" rest) = None ->
      scan_to_unichar (String "/" rest) "," = None ->
      parse_hosts_again (uri, String "/" rest, ret)
      = Return (true, append_host uri EmptyString MONGOC_DEFAULT_PORT,
                Some (String "/" rest))) /\
  (forall uri rest ret,
      scan_to_unichar (String "?" rest) "," = None ->
      scan_to_unichar (String "?" rest) "/" = None ->
      parse_hosts_again (uri, String "?" rest, ret)
      = Return (true, append_host uri EmptyString MONGOC_DEFAULT_PORT,
                Some (String "?" rest))) /\
  new "mongodb:///"
  = Ret (Some
           {| str := Some "mongodb:///";
              hosts :=
                [host_link host_size host_and_port_size EmptyString 27017];
              username := None; password := None; database := None;
              options := []; read_prefs := []; write_concern := [] |}) /\
  new "mongodb://,h"
  = Ret (Some
           {| str := Some "mongodb://,h";
              hosts :=
                [host_link host_size host_and_port_size EmptyString 27017;
                 host_link host_size host_and_port_size "h" 27017];
              username := None; password := None; database := None;
              options := []; read_prefs := []; write_concern := [] |}).
Proof.
  split; [|split; [|split; [|split; [|split; [|split; [|split]]]]]].
  - intros stop rest. apply scan_to_unichar_at_stop.
  - intros uri. split; reflexivity.
  - repeat split.
  - intros uri rest ret. unfold mongoc_uri_parse_hosts_again.
    rewrite sock_path_not_slash by discriminate.
    rewrite scan_to_unichar_at_stop, mongoc_uri_parse_host_empty.
    now rewrite ptr_add_1.
  - intros uri rest ret Hsock Hcomma.
    unfold mongoc_uri_parse_hosts_again. rewrite Hsock, Hcomma.
    now rewrite scan_to_unichar_at_stop, mongoc_uri_parse_host_empty.
  - intros uri rest ret Hcomma Hslash.
    unfold mongoc_uri_parse_hosts_again.
    rewrite sock_path_not_slash by discriminate. rewrite Hcomma, Hslash.
    now rewrite scan_to_unichar_at_stop, mongoc_uri_parse_host_empty.
  - vm_compute. reflexivity.
  - vm_compute. reflexivity.
Qed.

(** The branch of the socket path leaves the function through the last
    [return ret] when no comma follows the path: [*end] is not written. *)
Lemma mongoc_uri_parse_hosts_again_sock uri str ret sock uri' :
  sock_path str = Some sock ->
  parse_host uri (bson_strndup str (ptr_diff (ptr_add sock 5) str))
  = (true, uri') ->
  deref (ptr_add sock 5) <> ","%char ->
  parse_hosts_again (uri, str, ret) = Return (true, uri', None).
Proof.
  intros Hsock Hhost Hnext. unfold mongoc_uri_parse_hosts_again.
  rewrite Hsock, Hhost. apply Ascii.eqb_neq in Hnext. now rewrite Hnext.
Qed.

(** C3, on the code.  After the socket path of "mongodb:///tmp/x.sock/db"
    the host list returns TRUE without writing [*end]: the [switch] reads
    the text from the start of the path, and the database of the result is
    "tmp/x.sock/db". *)
Theorem socket_path_cursor_not_advanced :
  parse_hosts uri_zero "/tmp/x.sock/db"
  = Ret (true, append_host uri_zero "/tmp/x.sock" MONGOC_DEFAULT_PORT, None) /\
  new "mongodb:///tmp/x.sock/db"
  = Ret (Some
           {| str := Some "mongodb:///tmp/x.sock/db";
              hosts :=
                [host_link host_size host_and_port_size "/tmp/x.sock" 27017];
              username := None; password := None;
              database := Some "tmp/x.sock/db";
              options := []; read_prefs := []; write_concern := [] |}).
Proof. split; vm_compute; reflexivity. Qed.

(** C6.  With room for the names in the two arrays of a link,
    "mongodb://a,b:27018,/tmp/x.sock,c/" gives four hosts, in the order of
    the text: [a] and [c] with the default port, [b] with port 27018, all
    three network hosts, and the socket path with the default port. *)
Theorem four_hosts_in_order :
  11 < host_size -> 17 < host_and_port_size ->
  mongoc_uri_new host_size host_and_port_size
    "mongodb://a,b:27018,/tmp/x.sock,c/"
  = Ret (Some
           {| str := Some "mongodb://a,b:27018,/tmp/x.sock,c/";
              hosts :=
                [{| host := "a"; host_and_port := "a:27017";
                    port := 27017; family := AF_INET |};
                 {| host := "b"; host_and_port := "b:27018";
                    port := 27018; family := AF_INET |};
                 {| host := "/tmp/x.sock";
                    host_and_port := "/tmp/x.sock:27017";
                    port := 27017; family := AF_UNIX |};
                 {| host := "c"; host_and_port := "c:27017";
                    port := 27017; family := AF_INET |}];
              username := None; password := None; database := None;
              options := []; read_prefs := []; write_concern := [] |}).
Proof.
  intros Hh Hp.
  replace host_size with (12 + (host_size - 12)) by lia.
  replace host_and_port_size with (18 + (host_and_port_size - 18)) by lia.
  generalize (host_size - 12), (host_and_port_size - 18). intros n m.
  vm_compute. reflexivity.
Qed.

(** Before the [switch] no stage has stored a database. *)
Lemma stages_database uri_string uri' :
  stages uri_zero uri_string uri' ->
  exists u2 cursor,
    database u2 = None /\
    mongoc_uri_parse_switch u2 cursor = Ret (true, uri').
Proof.
  intros (s1 & u1 & e1 & u2 & e2 & _ & _ & Hup & _ & Hh & Hsw).
  exists u2, (written e2 (written e1 s1)). split; [|exact Hsw].
  apply mongoc_uri_parse_userpass_inv in Hup. destruct Hup as (a & b & ->).
  apply mongoc_uri_parse_hosts_inv in Hh. destruct Hh as (l & -> & _).
  reflexivity.
Qed.

(** What the [switch] does.  The database is read only when the host list
    leaves the text at a [/].  After that [/], the end of the text leaves
    the database NULL; any other character, a [?] too, makes the stage
    store the text up to the first unescaped [?], or up to the end when
    there is none: after "/?" the database is the empty text, not NULL.
    The database of a result is the one that the [switch] stored, if any. *)
Theorem database_stage_captures :
  (forall uri_string uri,
      new uri_string = Ret (Some uri) ->
      exists u2 cursor uri',
        mongoc_uri_get_database u2 = None /\
        mongoc_uri_parse_switch u2 cursor = Ret (true, uri') /\
        mongoc_uri_get_database uri = mongoc_uri_get_database uri') /\
  (forall uri str ok uri',
      deref str <> "/"%char ->
      mongoc_uri_parse_switch uri str = Ret (ok, uri') ->
      mongoc_uri_get_database uri' = mongoc_uri_get_database uri) /\
  (forall uri, mongoc_uri_parse_switch uri "/" = Ret (true, uri)) /\
  (forall uri str ok uri',
      deref str <> NUL ->
      mongoc_uri_parse_switch uri (String "/" str) = Ret (ok, uri') ->
      mongoc_uri_get_database uri'
      = Some match scan_to_unichar str "?" with
             | Some (db, _) => db
             | None => str
             end) /\
  (forall uri rest ok uri',
      mongoc_uri_parse_switch uri (String "/" (String "?" rest))
      = Ret (ok, uri') ->
      mongoc_uri_get_database uri' = Some EmptyString) /\
  new "mongodb://h/?ssl=true"
  = Ret (Some
           {| str := Some "mongodb://h/?ssl=true";
              hosts := [host_link host_size host_and_port_size "h" 27017];
              username := None; password := None;
              database := Some EmptyString;
              options := [("ssl", BSON_BOOL true)];
              read_prefs := []; write_concern := [] |}) /\
  new "mongodb://h/"
  = Ret (Some
           {| str := Some "mongodb://h/";
              hosts := [host_link host_size host_and_port_size "h" 27017];
              username := None; password := None;
              database := None;
              options := []; read_prefs := []; write_concern := [] |}).
Proof.
  assert (Hcapture : forall uri str ok uri',
             deref str <> NUL ->
             mongoc_uri_parse_switch uri (String "/" str) = Ret (ok, uri') ->
             mongoc_uri_get_database uri'
             = Some match scan_to_unichar str "?" with
                    | Some (db, _) => db
                    | None => str
                    end).
  { intros uri str ok uri' Hstr. unfold mongoc_uri_parse_switch.
    cbn [deref]. change (Ascii.eqb "/" "/") with true. cbv iota.
    rewrite ptr_add_1. apply Ascii.eqb_neq in Hstr. rewrite Hstr.
    cbn [negb]. unfold mongoc_uri_parse_database. rewrite Hstr. cbn [negb].
    destruct (scan_to_unichar str "?") as [[db e]|]; cbn [negb written].
    - destruct (Ascii.eqb (deref e) NUL).
      + intros H; injection H as <- <-. reflexivity.
      + intros H. apply mongoc_uri_parse_case_options_inv in H.
        destruct H as (lo & lr & ->). reflexivity.
    - rewrite ptr_add_strlen. cbn [deref].
      change (Ascii.eqb NUL NUL) with true. cbv iota.
      intros H; injection H as <- <-. reflexivity. }
  split; [|split; [|split; [|split; [|split; [|split]]]]].
  - intros uri_string uri Hnew. apply mongoc_uri_new_inv in Hnew.
    destruct Hnew as (u & Hp & ->).
    apply mongoc_uri_parse_true, stages_database in Hp.
    destruct Hp as (u2 & cursor & Hdb & Hsw).
    exists u2, cursor, u. repeat split; assumption.
  - intros uri str ok uri' Hstr. unfold mongoc_uri_parse_switch.
    apply Ascii.eqb_neq in Hstr. rewrite Hstr.
    destruct (Ascii.eqb (deref str) "?").
    + intros H. apply mongoc_uri_parse_case_options_inv in H.
      destruct H as (lo & lr & ->). reflexivity.
    + intros H; injection H as <- <-. reflexivity.
  - intros uri. vm_compute. reflexivity.
  - exact Hcapture.
  - intros uri rest ok uri' H. apply Hcapture in H; [|discriminate].
    now rewrite scan_to_unichar_at_stop in H.
  - vm_compute. reflexivity.
  - vm_compute. reflexivity.
Qed.

(** C4, on the code.  After "mongodb://h/?ssl=true" the database of the
    result is the empty text, not NULL: the stage is entered on every
    character after the [/], the [?] too, and the scanner returns the
    empty text there.  The two neighbours of this input, the bare [/] of
    "mongodb://h/" and the [?] without a [/] of "mongodb://h?ssl=true",
    leave the database NULL. *)
Theorem database_empty_text_after_slash_question :
  new "mongodb://h/?ssl=true"
  = Ret (Some
           {| str := Some "mongodb://h/?ssl=true";
              hosts := [host_link host_size host_and_port_size "h" 27017];
              username := None; password := None;
              database := Some EmptyString;
              options := [("ssl", BSON_BOOL true)];
              read_prefs := []; write_concern := [] |}) /\
  new "mongodb://h/"
  = Ret (Some
           {| str := Some "mongodb://h/";
              hosts := [host_link host_size host_and_port_size "h" 27017];
              username := None; password := None;
              database := None;
              options := []; read_prefs := []; write_concern := [] |}) /\
  new "mongodb://h?ssl=true"
  = Ret (Some
           {| str := Some "mongodb://h?ssl=true";
              hosts := [host_link host_size host_and_port_size "h" 27017];
              username := None; password := None;
              database := None;
              options := [("ssl", BSON_BOOL true)];
              read_prefs := []; write_concern := [] |}).
Proof. split; [|split]; vm_compute; reflexivity. Qed.


End Stages.

(** ** More on the scanner *)




Lemma free_of_cons cs c s :
  free_of cs (String c s) = true ->
  existsb (Ascii.eqb c) cs = false /\ free_of cs s = true.
Proof.
  cbn [free_of]. intros H. apply andb_true_iff in H. destruct H as [H1 H2].
  apply negb_true_iff in H1. auto.
Qed.

Lemma free_of_weaken cs cs' s :
  (forall c, In c cs' -> In c cs) ->
  free_of cs s = true -> free_of cs' s = true.
Proof.
  intros Hincl. induction s as [|c s IH]; [reflexivity|].
  intros H. apply free_of_cons in H. destruct H as [Hc Hs].
  cbn [free_of]. rewrite (IH Hs), andb_true_r. apply negb_true_iff.
  destruct (existsb (Ascii.eqb c) cs') eqn:E; [|reflexivity].
  apply existsb_exists in E. destruct E as (x & Hin & Hx).
  assert (Hex : existsb (Ascii.eqb c) cs = true)
    by (apply existsb_exists; exists x; auto).
  congruence.
Qed.


(** On a text without backslash the scanner stops at the first [stop]. *)
Lemma scan_iter_free (stop : ascii) (s rest : string) :
  free_of [stop; "\"%char] s = true ->
  scan_iter (s ++ String stop rest) stop = Some (String stop rest) /\
  scan_iter s stop = None.
Proof.
  induction s as [|c s IH]; intros H.
  - cbn [append scan_iter]. now rewrite Ascii.eqb_refl.
  - apply free_of_cons in H. destruct H as [Hc Hs]. cbn [existsb] in Hc.
    apply orb_false_iff in Hc. destruct Hc as [Hc1 Hc2].
    apply orb_false_iff in Hc2. destruct Hc2 as [Hc2 _].
    cbn [append scan_iter]. rewrite Hc1, Hc2. now apply IH.
Qed.

Lemma scan_to_unichar_free (stop : ascii) (s rest : string) :
  free_of [stop; "\"%char] s = true ->
  scan_to_unichar (s ++ String stop rest) stop
  = Some (s, String stop rest) /\
  scan_to_unichar s stop = None.
Proof.
  intros H. destruct (scan_iter_free stop s rest H) as [H1 H2].
  unfold scan_to_unichar. rewrite H1, H2. split; [|reflexivity].
  now rewrite bson_strndup_ptr_diff.
Qed.

(** X2. For a 7-bit character and a text of well-formed UTF-8: with
    no backslash before it, the first occurrence of the character is where
    the scanner stops, and a text without the character gives NULL; the
    scanner is then the plain split at the first occurrence. *)
Theorem scan_to_unichar_plain (stop : ascii) (s rest : string) :
  in_range 1 127 stop = true ->
  utf8_text s = true ->
  free_of [stop; "\"%char] s = true ->
  scan_to_unichar (s ++ String stop rest) stop
  = Some (s, String stop rest) /\
  scan_to_unichar s stop = None.
Proof. intros _ _. apply scan_to_unichar_free. Qed.


(** ** More on the stages *)

Section MoreStages.

Variables host_size host_and_port_size : nat.

Local Opaque ptr_add.

Local Abbreviation append_host :=
  (mongoc_uri_append_host host_size host_and_port_size).
Local Abbreviation link := (host_link host_size host_and_port_size).
Local Abbreviation parse_host :=
  (mongoc_uri_parse_host host_size host_and_port_size).
Local Abbreviation parse_hosts_again :=
  (mongoc_uri_parse_hosts_again host_size host_and_port_size).
Local Abbreviation parse_hosts :=
  (mongoc_uri_parse_hosts host_size host_and_port_size).
Local Abbreviation parse := (mongoc_uri_parse host_size host_and_port_size).
Local Abbreviation new := (mongoc_uri_new host_size host_and_port_size).
Local Abbreviation stages := (all_stages host_size host_and_port_size).
Local Abbreviation from_text :=
  (host_from_text host_size host_and_port_size).

Lemma strncmp_zero (a b : string) (n : nat) :
  strncmp a b n = 0%Z <-> bson_strndup a n = bson_strndup b n.
Proof.
  revert a b. induction n as [|n IH]; intros a b.
  - destruct a, b; simpl; split; reflexivity.
  - destruct a as [|ca a], b as [|cb b]; cbn [strncmp bson_strndup];
      try (split; [reflexivity | reflexivity]);
      try (split; discriminate).
    rewrite uchar_eqb. destruct (Ascii.eqb_spec ca cb) as [->|Hne].
    + rewrite IH. split; [intros ->; reflexivity | intros H; now injection H].
    + split.
      * intros H. exfalso. apply Hne, uchar_inj. lia.
      * intros H. injection H as H _. contradiction.
Qed.

Lemma bson_strndup_ptr_add (a : string) (n : nat) :
  a = (bson_strndup a n ++ ptr_add a n)%string.
Proof.
  revert a. induction n as [|n IH]; intros [|c a]; cbn; try reflexivity.
  now rewrite <- IH.
Qed.

Lemma mongoc_uri_parse_scheme_inv (str rest : string) :
  mongoc_uri_parse_scheme str = Some rest ->
  str = ("mongodb://" ++ rest)%string.
Proof.
  unfold mongoc_uri_parse_scheme.
  destruct (strncmp str "mongodb://" 10 =? 0)%Z eqn:E; [|discriminate].
  cbn [negb]. intros H; injection H as <-.
  apply Z.eqb_eq, strncmp_zero in E.
  rewrite (bson_strndup_ptr_add str 10) at 1. now rewrite E.
Qed.

(** X4. The scheme stage succeeds exactly on the texts that start with
    "mongodb://", in lower case, and leaves the cursor after these ten
    characters. *)
Theorem mongoc_uri_parse_scheme_iff (str rest : string) :
  mongoc_uri_parse_scheme str = Some rest <->
  str = ("mongodb://" ++ rest)%string.
Proof.
  split.
  - apply mongoc_uri_parse_scheme_inv.
  - intros ->. apply mongoc_uri_parse_scheme_ok.
Qed.

(** X5. A parse that succeeds was given a text that starts with
    "mongodb://" and goes on after it, and its result keeps the whole
    text as it was given. *)
Theorem mongoc_uri_new_keeps_string (uri_string : string)
  (uri : mongoc_uri_t) :
  new uri_string = Ret (Some uri) ->
  mongoc_uri_get_string uri = Some uri_string /\
  exists rest,
    uri_string = ("mongodb://" ++ rest)%string /\ rest <> EmptyString.
Proof.
  intros H. apply mongoc_uri_new_inv in H. destruct H as (u & Hp & ->).
  split; [reflexivity|].
  apply mongoc_uri_parse_true in Hp.
  destruct Hp as (s1 & u1 & e1 & u2 & e2 & Hsch & Hn & _).
  exists s1. split; [now apply mongoc_uri_parse_scheme_inv|].
  intros ->. now apply Hn.
Qed.

Lemma mongoc_uri_parse_userpass_cases uri str ok uri' end_ :
  mongoc_uri_parse_userpass uri str = (ok, uri', end_) ->
  match scan_to_unichar str "@" with
  | None => ok = true /\ uri' = uri /\ end_ = None
  | Some (tok, e) =>
      match scan_to_unichar tok ":" with
      | None => ok = false
      | Some (user, e') =>
          ok = true /\
          uri' = set_password (set_username uri (Some user))
                   (Some (ptr_add e' 1)) /\
          end_ = Some (ptr_add e 1)
      end
  end.
Proof.
  unfold mongoc_uri_parse_userpass.
  destruct (scan_to_unichar str "@") as [[tok e]|].
  - destruct (scan_to_unichar tok ":") as [[user e']|];
      intros H; injection H as <- <- <-; auto.
  - intros H; injection H as <- <- <-; auto.
Qed.

(** X7. The credentials of a result are read off the text after the
    scheme alone.  Without an unescaped [@] there is neither a user name
    nor a password; with one, both are there: a result never has one
    without the other. *)
Theorem credentials_both_or_neither (rest : string) (uri : mongoc_uri_t) :
  new ("mongodb://" ++ rest) = Ret (Some uri) ->
  match scan_to_unichar rest "@" with
  | None => username uri = None /\ password uri = None
  | Some (tok, _) =>
      exists user e,
        scan_to_unichar tok ":" = Some (user, e) /\
        username uri = Some user /\
        password uri = Some (ptr_add e 1)
  end.
Proof.
  intros H. apply mongoc_uri_new_inv in H. destruct H as (u & Hp & ->).
  apply mongoc_uri_parse_true in Hp.
  destruct Hp as (s1 & u1 & e1 & u2 & e2 & Hsch & _ & Hup & _ & Hh & Hsw).
  rewrite mongoc_uri_parse_scheme_ok in Hsch. injection Hsch as <-.
  apply mongoc_uri_parse_hosts_inv in Hh. destruct Hh as (l & -> & _).
  apply mongoc_uri_parse_switch_inv in Hsw.
  destruct Hsw as (d & lo & lr & ->).
  apply mongoc_uri_parse_userpass_cases in Hup.
  destruct (scan_to_unichar rest "@") as [[tok e]|].
  - destruct (scan_to_unichar tok ":") as [[user e']|]; [|discriminate].
    destruct Hup as (_ & -> & _). exists user, e'. repeat split.
  - destruct Hup as (_ & -> & _). split; reflexivity.
Qed.

(** X8. An option is refused exactly when it has no unescaped [=], and
    a refused option stores nothing. *)
Theorem mongoc_uri_parse_option_refused (uri : mongoc_uri_t) (str : string)
  (uri' : mongoc_uri_t) :
  mongoc_uri_parse_option uri str = Ret (false, uri') <->
  scan_to_unichar str "=" = None /\ uri' = uri.
Proof.
  destruct (scan_to_unichar str "=") as [[key e]|] eqn:Hscan.
  - destruct (key_in key ["readpreferencetags"]) eqn:Hkey.
    + rewrite (mongoc_uri_parse_option_tags _ _ _ _ Hscan Hkey).
      split; [discriminate | intros [? _]; discriminate].
    + rewrite (mongoc_uri_parse_option_stored _ _ _ _ Hscan Hkey).
      split; [discriminate | intros [? _]; discriminate].
  - unfold mongoc_uri_parse_option. rewrite Hscan. split.
    + intros H; injection H as <-. auto.
    + intros [_ ->]. reflexivity.
Qed.




(** *** The hosts of a result *)



(** X10. A host token is refused exactly when it has an unescaped [:]
    that is not followed by a digit, an empty port too; a refused token
    leaves the list of hosts as it was. *)
Theorem mongoc_uri_parse_host_refused (uri : mongoc_uri_t) (str : string)
  (uri' : mongoc_uri_t) :
  parse_host uri str = (false, uri') <->
  (exists hostname end_host,
      scan_to_unichar str ":" = Some (hostname, end_host) /\
      isdigit (deref (ptr_add end_host 1)) = false) /\
  uri' = uri.
Proof.
  unfold mongoc_uri_parse_host.
  destruct (scan_to_unichar str ":") as [[hostname e]|].
  - destruct (isdigit (deref (ptr_add e 1))) eqn:Hd; cbn [negb].
    + split; [discriminate|].
      intros [(h & e' & H & Hd') _]. injection H as <- <-. congruence.
    + split.
      * intros H; injection H as <-. eauto.
      * intros [_ ->]. reflexivity.
  - split; [discriminate|]. intros [(h & e' & H & _) _]. discriminate.
Qed.



















(** *** The options and the tag groups of a result *)

Lemma to_int32_range (v : Z) : int32_range (to_int32 v).
Proof.
  unfold int32_range, to_int32.
  pose proof (Z.mod_pos_bound (v + 2 ^ 31) (2 ^ 32)). lia.
Qed.

Lemma coerced_shape (key value : string) :
  match coerced key value with
  | BSON_INT32 v => int32_range v
  | BSON_DOCUMENT _ => False
  | _ => True
  end.
Proof.
  unfold coerced.
  repeat match goal with
         | |- context [if ?c then _ else _] => destruct c
         end; auto using to_int32_range.
Qed.

Lemma tag_group_texts (value : string) :
  is_tag_group (BSON_DOCUMENT (tag_group value)) = true.
Proof.
  unfold tag_group. cbn [is_tag_group].
  induction (split_unescaped "," EmptyString value) as [|tok toks IH];
    [reflexivity|].
  cbn [flat_map]. rewrite forallb_app, IH, andb_true_r.
  unfold tag_of_token. now destruct (scan_to_unichar tok ":") as [[k e]|].
Qed.

Lemma tag_groups_append (b : bson_t) (value : string) :
  tag_groups b ->
  tag_groups
    (b ++ [(in_buffer 32 (decimal (N.of_nat (bson_count_keys b))),
            BSON_DOCUMENT (tag_group value))]).
Proof.
  intros [Hnum Htags]. split.
  - unfold numbered in *. rewrite map_app, length_app. cbn [List.length map].
    rewrite Nat.add_1_r, seq_S, map_app, <- Hnum. reflexivity.
  - rewrite forallb_app, Htags. cbn [forallb snd].
    now rewrite tag_group_texts.
Qed.

Lemma mongoc_uri_parse_option_well_stored uri str ok uri' :
  well_stored uri ->
  mongoc_uri_parse_option uri str = Ret (ok, uri') -> well_stored uri'.
Proof.
  intros [Hopt Htag].
  destruct (scan_to_unichar str "=") as [[key e]|] eqn:Hscan.
  - destruct (key_in key ["readpreferencetags"]) eqn:Hkey.
    + rewrite (mongoc_uri_parse_option_tags _ _ _ _ Hscan Hkey).
      intros H; injection H as <- <-. split; [exact Hopt|].
      now apply tag_groups_append.
    + rewrite (mongoc_uri_parse_option_stored _ _ _ _ Hscan Hkey).
      intros H; injection H as <- <-. split; [|exact Htag].
      cbn [options set_options]. apply Forall_app. split; [exact Hopt|].
      constructor; [|constructor]. unfold stored_option. cbn [fst snd].
      split; [exact Hkey|]. split; [eauto | apply coerced_shape].
  - unfold mongoc_uri_parse_option. rewrite Hscan.
    intros H; injection H as <- <-. now split.
Qed.

Lemma mongoc_uri_parse_options_well_stored uri str ok uri' :
  well_stored uri ->
  mongoc_uri_parse_options uri str = Ret (ok, uri') -> well_stored uri'.
Proof.
  intros Huri. unfold mongoc_uri_parse_options.
  apply (goto_again_invariant mongoc_uri_parse_options_again
           (fun st => well_stored (fst st))
           (fun r => well_stored (snd r))); [| |exact Huri].
  - intros [u s] [u' s'] Hu H. cbn [fst snd] in *.
    unfold mongoc_uri_parse_options_again in H.
    destruct (scan_to_unichar s "&") as [[opt e]|].
    + destruct (mongoc_uri_parse_option u opt) as [[ok1 u1]|] eqn:Ho;
        cbn [bind] in H; [|discriminate].
      apply (mongoc_uri_parse_option_well_stored _ _ _ _ Hu) in Ho.
      destruct ok1; cbn [negb] in H; [|discriminate].
      now injection H as <- <-.
    + destruct (negb _); [|discriminate].
      destruct (mongoc_uri_parse_option u s) as [[ok1 u1]|];
        cbn [bind] in H; [|discriminate].
      destruct ok1; discriminate.
  - intros [u s] [ok' u'] Hu H. cbn [fst snd] in *.
    unfold mongoc_uri_parse_options_again in H.
    destruct (scan_to_unichar s "&") as [[opt e]|].
    + destruct (mongoc_uri_parse_option u opt) as [[ok1 u1]|] eqn:Ho;
        cbn [bind] in H; [|discriminate].
      apply (mongoc_uri_parse_option_well_stored _ _ _ _ Hu) in Ho.
      destruct ok1; cbn [negb] in H; [discriminate|].
      now injection H as <- <-.
    + destruct (negb _).
      * destruct (mongoc_uri_parse_option u s) as [[ok1 u1]|] eqn:Ho;
          cbn [bind] in H; [|discriminate].
        apply (mongoc_uri_parse_option_well_stored _ _ _ _ Hu) in Ho.
        destruct ok1; now injection H as <- <-.
      * now injection H as <- <-.
Qed.

Lemma mongoc_uri_parse_switch_well_stored uri str ok uri' :
  well_stored uri ->
  mongoc_uri_parse_switch uri str = Ret (ok, uri') -> well_stored uri'.
Proof.
  intros Huri.
  assert (Hcase : forall u s ok1 u1,
             well_stored u ->
             mongoc_uri_parse_case_options u s = Ret (ok1, u1) ->
             well_stored u1).
  { intros u s ok1 u1 Hu. unfold mongoc_uri_parse_case_options.
    destruct (negb _).
    - destruct (mongoc_uri_parse_options u _) as [[ok2 u2]|] eqn:Ho;
        cbn [bind]; [|discriminate].
      apply (mongoc_uri_parse_options_well_stored _ _ _ _ Hu) in Ho.
      destruct ok2; intros H; now injection H as <- <-.
    - intros H; now injection H as <- <-. }
  unfold mongoc_uri_parse_switch. destruct (Ascii.eqb (deref str) "/").
  - destruct (if negb _ then _ else _) as [[ok1 u1] e1] eqn:Hdb.
    assert (Hu1 : well_stored u1).
    { destruct (negb _).
      - apply mongoc_uri_parse_database_inv in Hdb.
        destruct Hdb as (_ & d & ->). exact Huri.
      - now injection Hdb as <- <- <-. }
    clear Hdb. destruct (negb ok1).
    { intros H; now injection H as <- <-. }
    destruct (Ascii.eqb _ NUL).
    { intros H; now injection H as <- <-. }
    now apply Hcase.
  - destruct (Ascii.eqb (deref str) "?"); [now apply Hcase|].
    intros H; now injection H as <- <-.
Qed.

Lemma mongoc_uri_new_well_stored uri_string uri :
  new uri_string = Ret (Some uri) -> well_stored uri.
Proof.
  intros H. apply mongoc_uri_new_inv in H. destruct H as (u & Hp & ->).
  apply mongoc_uri_parse_true in Hp.
  destruct Hp as (s1 & u1 & e1 & u2 & e2 & _ & _ & Hup & _ & Hh & Hsw).
  apply mongoc_uri_parse_userpass_inv in Hup. destruct Hup as (a & b & ->).
  apply mongoc_uri_parse_hosts_inv in Hh. destruct Hh as (l & -> & _).
  apply mongoc_uri_parse_switch_well_stored in Hsw; [exact Hsw|].
  split; [constructor|]. split; reflexivity.
Qed.

(** X12. Every option of a result has the type that its key selects:
    its value is what the table of coercions gives for its key, so an
    [Int32] fits 32 bits and there is no document among the options; and no
    option has the key of the tag groups. *)
Theorem mongoc_uri_new_options_typed (uri_string : string)
  (uri : mongoc_uri_t) :
  new uri_string = Ret (Some uri) ->
  Forall stored_option (mongoc_uri_get_options uri).
Proof. intros H. apply mongoc_uri_new_well_stored in H. apply H. Qed.

(** X13. The tag groups of a result are numbered from 0 in the order of
    their options, and each one is a document of texts. *)
Theorem mongoc_uri_new_tag_groups (uri_string : string)
  (uri : mongoc_uri_t) :
  new uri_string = Ret (Some uri) ->
  numbered (mongoc_uri_get_read_preferences uri) /\
  forallb (fun kv => is_tag_group (snd kv))
    (mongoc_uri_get_read_preferences uri) = true.
Proof. intros H. apply mongoc_uri_new_well_stored in H. apply H. Qed.

(** *** Where the host list and the database leave the cursor *)



(** *** The parse of a plain text *)

Lemma plain_scan (s : string) (stop : ascii) :
  plain s = true ->
  In stop [","%char; "/"%char; "?"%char; ":"%char; "@"%char] ->
  free_of [stop; "\"%char] s = true.
Proof.
  intros Hs Hstop. unfold plain in Hs.
  eapply free_of_weaken; [|exact Hs].
  intros c Hc. cbn [In] in *. intuition (subst; auto 10).
Qed.

Lemma plain_head (s : string) :
  plain s = true -> s <> EmptyString ->
  Ascii.eqb (deref s) NUL = false /\
  Ascii.eqb (deref s) "/" = false /\
  Ascii.eqb (deref s) "?" = false.
Proof.
  destruct s as [|c s]; [congruence|]. intros H _.
  apply free_of_cons in H. destruct H as [H _]. cbn [existsb deref] in *.
  repeat (apply orb_false_iff in H; destruct H as [? H]). auto.
Qed.


(** The host list on a plain token that ends the text. *)
Lemma mongoc_uri_parse_hosts_plain_end uri h :
  plain h = true -> h <> EmptyString ->
  parse_hosts uri h
  = Ret (true, append_host uri h MONGOC_DEFAULT_PORT, Some EmptyString).
Proof.
  intros Hp Hne. destruct (plain_head h Hp Hne) as (Hnul & Hslash & _).
  unfold mongoc_uri_parse_hosts. rewrite goto_again_unfold.
  unfold mongoc_uri_parse_hosts_again, sock_path, mongoc_uri_parse_host.
  rewrite Hslash, Hnul.
  rewrite (proj2 (scan_to_unichar_free "," h EmptyString
                    (plain_scan h "," Hp ltac:(cbn; auto 10)))).
  rewrite (proj2 (scan_to_unichar_free "/" h EmptyString
                    (plain_scan h "/" Hp ltac:(cbn; auto 10)))).
  rewrite (proj2 (scan_to_unichar_free "?" h EmptyString
                    (plain_scan h "?" Hp ltac:(cbn; auto 10)))).
  rewrite (proj2 (scan_to_unichar_free ":" h EmptyString
                    (plain_scan h ":" Hp ltac:(cbn; auto 10)))).
  cbn [negb]. now rewrite ptr_add_strlen.
Qed.



(** X16. Every text made of the scheme and a plain host name, one of
    well-formed UTF-8 without any of the characters [, / ? : @] and
    backslash, is parsed: the result has this one host with the default
    port and nothing else. *)
Theorem mongoc_uri_new_plain_host (h : string) :
  utf8_text h = true ->
  plain h = true -> h <> EmptyString ->
  new ("mongodb://" ++ h)
  = Ret (Some
           {| str := Some ("mongodb://" ++ h)%string;
              hosts := [link h MONGOC_DEFAULT_PORT];
              username := None; password := None; database := None;
              options := []; read_prefs := []; write_concern := [] |}).
Proof.
  intros _ Hp Hne. destruct (plain_head h Hp Hne) as (Hnul & Hslash & Hq).
  unfold mongoc_uri_new, mongoc_uri_parse.
  rewrite mongoc_uri_parse_scheme_ok, Hnul.
  unfold mongoc_uri_parse_userpass.
  rewrite (proj2 (scan_to_unichar_free "@" h EmptyString
                    (plain_scan h "@" Hp ltac:(cbn; auto 10)))).
  cbn [negb written]. rewrite Hnul.
  rewrite (mongoc_uri_parse_hosts_plain_end _ _ Hp Hne). reflexivity.
Qed.


(** *** Numbers written in decimal are read back *)

Lemma digits_digit (acc : Z) (c : ascii) (rest : string) :
  isdigit c = true ->
  digits acc (String c rest) = digits (acc * 10 + (uchar c - 48)) rest.
Proof. intros H. cbn [digits]. now rewrite H. Qed.

Lemma digits_uint_acc (d : Decimal.uint) (acc : positive) :
  digits (Zpos acc) (NilEmpty.string_of_uint d)
  = Zpos (Pos.of_uint_acc d acc).
Proof.
  revert acc. induction d; intros acc;
    cbn [NilEmpty.string_of_uint Pos.of_uint_acc]; try reflexivity;
    rewrite digits_digit by reflexivity;
    match goal with
    | |- digits ?z _ = Zpos (Pos.of_uint_acc _ ?a) =>
        replace z with (Zpos a) by (vm_compute (uchar _ - 48)%Z; lia)
    end; apply IHd.
Qed.

Lemma digits_uint (d : Decimal.uint) :
  digits 0 (NilEmpty.string_of_uint d) = Z.of_N (Pos.of_uint d).
Proof.
  induction d; cbn [NilEmpty.string_of_uint Pos.of_uint];
    try reflexivity; rewrite digits_digit by reflexivity.
  - exact IHd.
  - apply (digits_uint_acc d 1).
  - apply (digits_uint_acc d 2).
  - apply (digits_uint_acc d 3).
  - apply (digits_uint_acc d 4).
  - apply (digits_uint_acc d 5).
  - apply (digits_uint_acc d 6).
  - apply (digits_uint_acc d 7).
  - apply (digits_uint_acc d 8).
  - apply (digits_uint_acc d 9).
Qed.

Lemma decimal_not_nil (n : N) : N.to_uint n <> Decimal.Nil.
Proof.
  destruct n as [|p]; [discriminate|]. apply DecimalPos.Unsigned.to_uint_nonnil.
Qed.

Lemma decimal_digits (n : N) : digits 0 (decimal n) = Z.of_N n.
Proof.
  unfold decimal. pose proof (decimal_not_nil n) as Hn.
  rewrite <- (DecimalN.Unsigned.of_to n) at 2. unfold N.of_uint.
  rewrite <- digits_uint. destruct (N.to_uint n); [congruence|..];
    reflexivity.
Qed.

Lemma decimal_head (n : N) : isdigit (deref (decimal n)) = true.
Proof.
  unfold decimal. pose proof (decimal_not_nil n) as Hn.
  destruct (N.to_uint n); [congruence|..]; reflexivity.
Qed.

Lemma digit_head_reads (s : string) :
  isdigit (deref s) = true ->
  skip_spaces s = s /\
  strtol s = Z.max LONG_MIN (Z.min (digits 0 s) LONG_MAX).
Proof.
  destruct s as [|c r]; [discriminate|]. cbn [deref]. intros H.
  destruct c as [[] [] [] [] [] [] [] []]; try discriminate H;
    split; reflexivity.
Qed.


Lemma strtol_decimal (n : N) :
  (n < 2 ^ 31)%N -> to_int32 (strtol (decimal n)) = Z.of_N n.
Proof.
  intros Hn. rewrite (proj2 (digit_head_reads _ (decimal_head n))).
  rewrite decimal_digits. unfold LONG_MIN, LONG_MAX, to_int32.
  assert (Hz : (Z.of_N n < 2 ^ 31)%Z) by lia.
  rewrite Z.min_l, Z.max_r by lia.
  rewrite Z.mod_small by lia. lia.
Qed.


Lemma free_of_lowercase (cs : list ascii) (key : string) :
  (forall c, In c cs -> tolower c = c) ->
  free_of cs (lowercase key) = true -> free_of cs key = true.
Proof.
  intros Hcs. induction key as [|c key IH]; [reflexivity|].
  cbn [lowercase]. intros H. apply free_of_cons in H.
  destruct H as [Hc Hkey]. cbn [free_of]. rewrite (IH Hkey), andb_true_r.
  apply negb_true_iff.
  destruct (existsb (Ascii.eqb c) cs) eqn:E; [|reflexivity].
  apply existsb_exists in E. destruct E as (x & Hin & Hx).
  apply Ascii.eqb_eq in Hx. subst x.
  assert (Hex : existsb (Ascii.eqb (tolower c)) cs = true).
  { apply existsb_exists. exists c. split; [exact Hin|].
    rewrite (Hcs c Hin). apply Ascii.eqb_refl. }
  congruence.
Qed.

Lemma int32_key_shape (key : string) :
  key_in key int32_keys = true ->
  free_of ["="%char; "\"%char] key = true /\
  key_in key ["readpreferencetags"] = false.
Proof.
  intros H. unfold key_in in *. apply existsb_exists in H.
  destruct H as (name & Hin & Hname). apply String.eqb_eq in Hname.
  split.
  - apply free_of_lowercase.
    + intros c [<-|[<-|[]]]; reflexivity.
    + rewrite Hname. cbn [In int32_keys] in Hin.
      repeat (destruct Hin as [<-|Hin]; [reflexivity|]). destruct Hin.
  - rewrite Hname. cbn [In int32_keys] in Hin.
    repeat (destruct Hin as [<-|Hin]; [reflexivity|]). destruct Hin.
Qed.

(** X19. A number below 2^31 written in decimal as the value of one of
    the eight numeric keys, in any case of the letters, is stored as the
    [Int32] of this number under the key as it was written. *)
Theorem mongoc_uri_parse_option_number (uri : mongoc_uri_t) (key : string)
  (n : N) :
  key_in key int32_keys = true ->
  (n < 2 ^ 31)%N ->
  mongoc_uri_parse_option uri (key ++ String "=" (decimal n))
  = Ret (true,
         set_options uri
           (mongoc_uri_get_options uri ++ [(key, BSON_INT32 (Z.of_N n))])).
Proof.
  intros Hkey Hn. destruct (int32_key_shape key Hkey) as [Hfree Htags].
  rewrite (mongoc_uri_parse_option_stored uri _ key (String "=" (decimal n)))
    by (try apply scan_to_unichar_free; assumption).
  rewrite ptr_add_1. unfold coerced. rewrite Hkey.
  now rewrite strtol_decimal.
Qed.

(** *** A plain host with a port *)








End MoreStages.
(** ** The properties at concrete inputs

    The two arrays of a link are given 257 and 263 bytes here: one more
    and seven more than the 256 that the source falls back to for
    [HOST_NAME_MAX]. *)

Lemma mongoc_uri_new_hosts_nonempty_witness :
  mongoc_uri_new 257 263 "mongodb://h"
  = Ret (Some
           {| str := Some "mongodb://h";
              hosts := [{| host := "h"; host_and_port := "h:27017";
                           port := 27017; family := AF_INET |}];
              username := None; password := None; database := None;
              options := []; read_prefs := []; write_concern := [] |}) /\
  mongoc_uri_get_hosts
    {| str := Some "mongodb://h";
       hosts := [{| host := "h"; host_and_port := "h:27017";
                    port := 27017; family := AF_INET |}];
       username := None; password := None; database := None;
       options := []; read_prefs := []; write_concern := [] |} <> [].
Proof.
  assert (H : mongoc_uri_new 257 263 "mongodb://h"
              = Ret (Some
                       {| str := Some "mongodb://h";
                          hosts := [{| host := "h";
                                       host_and_port := "h:27017";
                                       port := 27017; family := AF_INET |}];
                          username := None; password := None;
                          database := None; options := [];
                          read_prefs := []; write_concern := [] |}))
    by (vm_compute; reflexivity).
  split; [exact H|].
  exact (mongoc_uri_new_hosts_nonempty 257 263 _ _ H).
Defined.


Lemma options_are_appended_witness :
  scan_to_unichar "W=3" "=" = Some ("W", "=3") /\
  key_in "W" ["readpreferencetags"] = false /\
  mongoc_uri_parse_option
    (set_options uri_zero [("w", BSON_UTF8 "majority")]) "W=3"
  = Ret (true,
         set_options uri_zero
           [("w", BSON_UTF8 "majority"); ("W", BSON_INT32 3)]).
Proof.
  assert (H1 : scan_to_unichar "W=3" "=" = Some ("W", "=3")) by reflexivity.
  assert (H2 : key_in "W" ["readpreferencetags"] = false) by reflexivity.
  refine (conj H1 (conj H2 _)).
  exact (proj1 (options_are_appended 257 263)
           (set_options uri_zero [("w", BSON_UTF8 "majority")]) _ _ _ H1 H2).
Defined.

Lemma readpreferencetags_appends_one_group_witness :
  scan_to_unichar "readPreferenceTags=dc:ny,rack" "="
  = Some ("readPreferenceTags", "=dc:ny,rack") /\
  key_in "readPreferenceTags" ["readpreferencetags"] = true /\
  mongoc_uri_parse_option uri_zero "readPreferenceTags=dc:ny,rack"
  = Ret (true,
         set_read_prefs uri_zero
           [("0", BSON_DOCUMENT [("dc", BSON_UTF8 "ny")])]).
Proof.
  assert (H1 : scan_to_unichar "readPreferenceTags=dc:ny,rack" "="
               = Some ("readPreferenceTags", "=dc:ny,rack")) by reflexivity.
  assert (H2 : key_in "readPreferenceTags" ["readpreferencetags"] = true)
    by reflexivity.
  refine (conj H1 (conj H2 _)).
  exact (proj1 (proj2 (readpreferencetags_appends_one_group 257 263))
           uri_zero _ _ _ H1 H2).
Defined.

Lemma mongoc_uri_new_terminates_witness :
  scan_to_unichar "h/db" "/" = Some ("h", "/db") /\
  String.length (ptr_add "/db" 1) < String.length "h/db" /\
  mongoc_uri_parse_hosts_again 257 263 (uri_zero, "a,b", false)
  = Again (mongoc_uri_append_host 257 263 uri_zero "a" 27017, "b", true) /\
  String.length "b" < String.length "a,b".
Proof.
  assert (H1 : scan_to_unichar "h/db" "/" = Some ("h", "/db")) by reflexivity.
  assert (H2 : mongoc_uri_parse_hosts_again 257 263 (uri_zero, "a,b", false)
               = Again (mongoc_uri_append_host 257 263 uri_zero "a" 27017,
                        "b", true)) by reflexivity.
  refine (conj H1 (conj _ (conj H2 _))).
  - exact (proj2 (proj1 (proj2 (mongoc_uri_new_terminates 257 263))
                    _ _ _ _ H1)).
  - exact (proj1 (proj2 (proj2 (mongoc_uri_new_terminates 257 263)))
             _ _ _ _ _ _ H2).
Defined.

Lemma empty_host_token_accepted_witness :
  sock_path "/" = None /\
  scan_to_unichar "/" "," = None /\
  mongoc_uri_parse_hosts_again 257 263 (uri_zero, "/", false)
  = Return (true,
            mongoc_uri_append_host 257 263 uri_zero "" MONGOC_DEFAULT_PORT,
            Some "/").
Proof.
  assert (H1 : sock_path "/" = None) by reflexivity.
  assert (H2 : scan_to_unichar "/" "," = None) by reflexivity.
  refine (conj H1 (conj H2 _)).
  exact (proj1 (proj2 (proj2 (proj2 (proj2
           (empty_host_token_accepted 257 263)))))
           uri_zero _ false H1 H2).
Defined.

Lemma four_hosts_in_order_witness :
  11 < 257 /\ 17 < 263 /\
  mongoc_uri_new 257 263 "mongodb://a,b:27018,/tmp/x.sock,c/"
  = Ret (Some
           {| str := Some "mongodb://a,b:27018,/tmp/x.sock,c/";
              hosts :=
                [{| host := "a"; host_and_port := "a:27017";
                    port := 27017; family := AF_INET |};
                 {| host := "b"; host_and_port := "b:27018";
                    port := 27018; family := AF_INET |};
                 {| host := "/tmp/x.sock";
                    host_and_port := "/tmp/x.sock:27017";
                    port := 27017; family := AF_UNIX |};
                 {| host := "c"; host_and_port := "c:27017";
                    port := 27017; family := AF_INET |}];
              username := None; password := None; database := None;
              options := []; read_prefs := []; write_concern := [] |}).
Proof.
  assert (H1 : 11 < 257) by lia.
  assert (H2 : 17 < 263) by lia.
  refine (conj H1 (conj H2 _)).
  exact (four_hosts_in_order 257 263 H1 H2).
Defined.

Lemma database_stage_captures_witness :
  deref "db?ssl=true" <> NUL /\
  mongoc_uri_parse_switch uri_zero "/db?ssl=true"
  = Ret (true,
         set_options (set_database uri_zero (Some "db"))
           [("ssl", BSON_BOOL true)]) /\
  mongoc_uri_get_database
    (set_options (set_database uri_zero (Some "db"))
       [("ssl", BSON_BOOL true)]) = Some "db".
Proof.
  assert (H1 : deref "db?ssl=true" <> NUL) by discriminate.
  assert (H2 : mongoc_uri_parse_switch uri_zero "/db?ssl=true"
               = Ret (true,
                      set_options (set_database uri_zero (Some "db"))
                        [("ssl", BSON_BOOL true)]))
    by (vm_compute; reflexivity).
  refine (conj H1 (conj H2 _)).
  exact (proj1 (proj2 (proj2 (proj2 (database_stage_captures 257 263))))
           uri_zero _ _ _ H1 H2).
Defined.

(** After "mongodb://h/?ssl=true" the result has a database, the empty
    text. *)
Lemma database_present_after_slash_question :
  exists uri,
    mongoc_uri_new 257 263 "mongodb://h/?ssl=true" = Ret (Some uri) /\
    mongoc_uri_get_database uri <> None.
Proof.
  eexists. split; [vm_compute; reflexivity|]. discriminate.
Qed.

(** *** The further properties at concrete inputs *)


Lemma scan_to_unichar_plain_witness :
  in_range 1 127 "/" = true /\
  utf8_text "host" = true /\
  free_of ["/"%char; "\"%char] "host" = true /\
  scan_to_unichar ("host" ++ String "/" "db") "/" = Some ("host", "/db") /\
  scan_to_unichar "host" "/" = None.
Proof.
  assert (H0 : in_range 1 127 "/" = true) by reflexivity.
  assert (H1 : utf8_text "host" = true) by reflexivity.
  assert (H : free_of ["/"%char; "\"%char] "host" = true) by reflexivity.
  exact (conj H0 (conj H1 (conj H
           (scan_to_unichar_plain "/" "host" "db" H0 H1 H)))).
Defined.


Lemma mongoc_uri_parse_scheme_iff_witness :
  ("mongodb://h" = "mongodb://" ++ "h")%string /\
  mongoc_uri_parse_scheme "mongodb://h" = Some "h".
Proof.
  assert (H : ("mongodb://h" = "mongodb://" ++ "h")%string) by reflexivity.
  exact (conj H (proj2 (mongoc_uri_parse_scheme_iff "mongodb://h" "h") H)).
Defined.

Lemma mongoc_uri_new_keeps_string_witness :
  mongoc_uri_new 257 263 "mongodb://h"
  = Ret (Some
    {| str := Some "mongodb://h";
       hosts := [{| host := "h"; host_and_port := "h:27017";
                    port := 27017; family := AF_INET |}];
       username := None; password := None; database := None;
       options := []; read_prefs := []; write_concern := [] |}) /\
  mongoc_uri_get_string
    {| str := Some "mongodb://h";
       hosts := [{| host := "h"; host_and_port := "h:27017";
                    port := 27017; family := AF_INET |}];
       username := None; password := None; database := None;
       options := []; read_prefs := []; write_concern := [] |}
  = Some "mongodb://h" /\
  exists rest,
    ("mongodb://h" = "mongodb://" ++ rest)%string /\ rest <> EmptyString.
Proof.
  assert (H : mongoc_uri_new 257 263 "mongodb://h"
  = Ret (Some
    {| str := Some "mongodb://h";
       hosts := [{| host := "h"; host_and_port := "h:27017";
                    port := 27017; family := AF_INET |}];
       username := None; password := None; database := None;
       options := []; read_prefs := []; write_concern := [] |}))
    by (vm_compute; reflexivity).
  exact (conj H (mongoc_uri_new_keeps_string 257 263 _ _ H)).
Defined.

Lemma credentials_both_or_neither_witness :
  mongoc_uri_new 257 263 "mongodb://u:p@h"
  = Ret (Some
    {| str := Some "mongodb://u:p@h";
       hosts := [{| host := "h"; host_and_port := "h:27017";
                    port := 27017; family := AF_INET |}];
       username := Some "u"; password := Some "p"; database := None;
       options := []; read_prefs := []; write_concern := [] |}) /\
  match scan_to_unichar "u:p@h" "@" with
  | None =>
      username
        {| str := Some "mongodb://u:p@h";
       hosts := [{| host := "h"; host_and_port := "h:27017";
                    port := 27017; family := AF_INET |}];
       username := Some "u"; password := Some "p"; database := None;
       options := []; read_prefs := []; write_concern := [] |} = None /\
      password
        {| str := Some "mongodb://u:p@h";
       hosts := [{| host := "h"; host_and_port := "h:27017";
                    port := 27017; family := AF_INET |}];
       username := Some "u"; password := Some "p"; database := None;
       options := []; read_prefs := []; write_concern := [] |} = None
  | Some (tok, _) =>
      exists user e,
        scan_to_unichar tok ":" = Some (user, e) /\
        username
          {| str := Some "mongodb://u:p@h";
       hosts := [{| host := "h"; host_and_port := "h:27017";
                    port := 27017; family := AF_INET |}];
       username := Some "u"; password := Some "p"; database := None;
       options := []; read_prefs := []; write_concern := [] |} = Some user /\
        password
          {| str := Some "mongodb://u:p@h";
       hosts := [{| host := "h"; host_and_port := "h:27017";
                    port := 27017; family := AF_INET |}];
       username := Some "u"; password := Some "p"; database := None;
       options := []; read_prefs := []; write_concern := [] |}
        = Some (ptr_add e 1)
  end.
Proof.
  assert (H : mongoc_uri_new 257 263 "mongodb://u:p@h"
  = Ret (Some
    {| str := Some "mongodb://u:p@h";
       hosts := [{| host := "h"; host_and_port := "h:27017";
                    port := 27017; family := AF_INET |}];
       username := Some "u"; password := Some "p"; database := None;
       options := []; read_prefs := []; write_concern := [] |}))
    by (vm_compute; reflexivity).
  exact (conj H (credentials_both_or_neither 257 263 "u:p@h" _ H)).
Defined.

Lemma mongoc_uri_parse_option_refused_witness :
  scan_to_unichar "novalue" "=" = None /\
  mongoc_uri_parse_option uri_zero "novalue" = Ret (false, uri_zero).
Proof.
  assert (H : scan_to_unichar "novalue" "=" = None) by reflexivity.
  exact (conj H
           (proj2 (mongoc_uri_parse_option_refused uri_zero "novalue"
                     uri_zero) (conj H eq_refl))).
Defined.

Lemma mongoc_uri_parse_host_refused_witness :
  scan_to_unichar "h:abc" ":" = Some ("h", ":abc") /\
  isdigit (deref (ptr_add ":abc" 1)) = false /\
  mongoc_uri_parse_host 257 263 uri_zero "h:abc" = (false, uri_zero).
Proof.
  assert (H1 : scan_to_unichar "h:abc" ":" = Some ("h", ":abc"))
    by reflexivity.
  assert (H2 : isdigit (deref (ptr_add ":abc" 1)) = false) by reflexivity.
  refine (conj H1 (conj H2 _)).
  exact (proj2 (mongoc_uri_parse_host_refused 257 263 uri_zero "h:abc"
                  uri_zero)
           (conj (ex_intro _ "h" (ex_intro _ ":abc" (conj H1 H2))) eq_refl)).
Defined.


Lemma mongoc_uri_new_options_typed_witness :
  mongoc_uri_new 257 263
    "mongodb://h/?SSL=true&readpreferencetags=a:b"
  = Ret (Some
    {| str := Some "mongodb://h/?SSL=true&readpreferencetags=a:b";
       hosts := [{| host := "h"; host_and_port := "h:27017";
                    port := 27017; family := AF_INET |}];
       username := None; password := None; database := Some "";
       options := [("SSL", BSON_BOOL true)];
       read_prefs := [("0", BSON_DOCUMENT [("a", BSON_UTF8 "b")])];
       write_concern := [] |}) /\
  Forall stored_option
    (mongoc_uri_get_options
       {| str := Some "mongodb://h/?SSL=true&readpreferencetags=a:b";
       hosts := [{| host := "h"; host_and_port := "h:27017";
                    port := 27017; family := AF_INET |}];
       username := None; password := None; database := Some "";
       options := [("SSL", BSON_BOOL true)];
       read_prefs := [("0", BSON_DOCUMENT [("a", BSON_UTF8 "b")])];
       write_concern := [] |}).
Proof.
  assert (H : mongoc_uri_new 257 263
    "mongodb://h/?SSL=true&readpreferencetags=a:b"
  = Ret (Some
    {| str := Some "mongodb://h/?SSL=true&readpreferencetags=a:b";
       hosts := [{| host := "h"; host_and_port := "h:27017";
                    port := 27017; family := AF_INET |}];
       username := None; password := None; database := Some "";
       options := [("SSL", BSON_BOOL true)];
       read_prefs := [("0", BSON_DOCUMENT [("a", BSON_UTF8 "b")])];
       write_concern := [] |}))
    by (vm_compute; reflexivity).
  exact (conj H (mongoc_uri_new_options_typed 257 263 _ _ H)).
Defined.

Lemma mongoc_uri_new_tag_groups_witness :
  mongoc_uri_new 257 263
    "mongodb://h/?SSL=true&readpreferencetags=a:b"
  = Ret (Some
    {| str := Some "mongodb://h/?SSL=true&readpreferencetags=a:b";
       hosts := [{| host := "h"; host_and_port := "h:27017";
                    port := 27017; family := AF_INET |}];
       username := None; password := None; database := Some "";
       options := [("SSL", BSON_BOOL true)];
       read_prefs := [("0", BSON_DOCUMENT [("a", BSON_UTF8 "b")])];
       write_concern := [] |}) /\
  numbered
    (mongoc_uri_get_read_preferences
       {| str := Some "mongodb://h/?SSL=true&readpreferencetags=a:b";
       hosts := [{| host := "h"; host_and_port := "h:27017";
                    port := 27017; family := AF_INET |}];
       username := None; password := None; database := Some "";
       options := [("SSL", BSON_BOOL true)];
       read_prefs := [("0", BSON_DOCUMENT [("a", BSON_UTF8 "b")])];
       write_concern := [] |}) /\
  forallb (fun kv => is_tag_group (snd kv))
    (mongoc_uri_get_read_preferences
       {| str := Some "mongodb://h/?SSL=true&readpreferencetags=a:b";
       hosts := [{| host := "h"; host_and_port := "h:27017";
                    port := 27017; family := AF_INET |}];
       username := None; password := None; database := Some "";
       options := [("SSL", BSON_BOOL true)];
       read_prefs := [("0", BSON_DOCUMENT [("a", BSON_UTF8 "b")])];
       write_concern := [] |}) = true.
Proof.
  assert (H : mongoc_uri_new 257 263
    "mongodb://h/?SSL=true&readpreferencetags=a:b"
  = Ret (Some
    {| str := Some "mongodb://h/?SSL=true&readpreferencetags=a:b";
       hosts := [{| host := "h"; host_and_port := "h:27017";
                    port := 27017; family := AF_INET |}];
       username := None; password := None; database := Some "";
       options := [("SSL", BSON_BOOL true)];
       read_prefs := [("0", BSON_DOCUMENT [("a", BSON_UTF8 "b")])];
       write_concern := [] |}))
    by (vm_compute; reflexivity).
  exact (conj H (mongoc_uri_new_tag_groups 257 263 _ _ H)).
Defined.



Lemma mongoc_uri_new_plain_host_witness :
  utf8_text "localhost" = true /\
  plain "localhost" = true /\
  "localhost" <> EmptyString /\
  mongoc_uri_new 257 263 ("mongodb://" ++ "localhost")
  = Ret (Some
           {| str := Some ("mongodb://" ++ "localhost")%string;
              hosts := [host_link 257 263 "localhost" MONGOC_DEFAULT_PORT];
              username := None; password := None; database := None;
              options := []; read_prefs := []; write_concern := [] |}).
Proof.
  assert (H0 : utf8_text "localhost" = true) by reflexivity.
  assert (H1 : plain "localhost" = true) by reflexivity.
  assert (H2 : "localhost" <> EmptyString) by discriminate.
  exact (conj H0 (conj H1 (conj H2
           (mongoc_uri_new_plain_host 257 263 "localhost" H0 H1 H2)))).
Defined.



Lemma mongoc_uri_parse_option_number_witness :
  key_in "maxPoolSize" int32_keys = true /\
  (7 < 2 ^ 31)%N /\
  mongoc_uri_parse_option uri_zero ("maxPoolSize" ++ String "=" (decimal 7))
  = Ret (true,
         set_options uri_zero
           (mongoc_uri_get_options uri_zero
              ++ [("maxPoolSize", BSON_INT32 (Z.of_N 7))])).
Proof.
  assert (H1 : key_in "maxPoolSize" int32_keys = true) by reflexivity.
  assert (H2 : (7 < 2 ^ 31)%N) by reflexivity.
  exact (conj H1 (conj H2
           (mongoc_uri_parse_option_number uri_zero "maxPoolSize" 7
              H1 H2))).
Defined.


